(** * The Tekton PipelineRun reconciler of ks-devops

    A shallow embedding of [controllers/tekton/pipelinerun_controller.go]:
    the [Reconcile] entry point, [deleteExternalResources] and
    [reconcileTektonPipelineRun], running against an explicit model of the
    two API-server stores the reconciler talks to.  Every store call is
    recorded in a trace, and the environment may fail any call through a
    schedule of injected errors. *)

From Stdlib Require Import ZArith String List Bool.
From stdpp Require Import base option gmap strings list fin_maps.

Import ListNotations.
Local Open Scope string_scope.
Local Open Scope list_scope.

(** ** Kubernetes data, as far as the reconciler reads or writes it *)

(** Go's [time.Time], by its two counters; [IsZero] is the zero instant. *)
Record Time := mkTime { sec : Z; nsec : Z }.

Definition Time_IsZero (t : Time) : bool := (sec t =? 0)%Z && (nsec t =? 0)%Z.

(** [IsZero] on a pointer to [metav1.Time]: a nil pointer counts as zero. *)
Definition IsZero (t : option Time) : bool :=
  match t with
  | None => true
  | Some t' => Time_IsZero t'
  end.

Record ObjectMeta := mkObjectMeta {
  Name : string;
  Namespace : string;
  DeletionTimestamp : option Time;
  Finalizers : list string
}.

Record TypeMeta := mkTypeMeta { Kind : string; APIVersion : string }.

(** [devopsv2alpha1.PipelineRunSpec] and [devopsv2alpha1.PipelineRun]. *)
Record PipelineRunSpec := mkPipelineRunSpec {
  SpecName : string;
  PipelineRef : string
}.

Record PipelineRun := mkPipelineRun {
  Meta : ObjectMeta;
  Spec : PipelineRunSpec
}.

(** [tektonv1.PipelineRef], [tektonv1.PipelineRunSpec] (the reference is a
    pointer there, hence the option) and [tektonv1.PipelineRun]. *)
Record TknPipelineRef := mkTknPipelineRef { RefName : string }.

Record TknPipelineRunSpec := mkTknPipelineRunSpec {
  TknPipelineRef_ : option TknPipelineRef
}.

Record TknPipelineRun := mkTknPipelineRun {
  TknTypeMeta : TypeMeta;
  TknMeta : ObjectMeta;
  TknSpec : TknPipelineRunSpec
}.

(** [types.NamespacedName], as the pair (namespace, name). *)
Definition Key : Type := string * string.

Record Request := mkRequest { NamespacedName : Key }.

Definition ReqNamespace (req : Request) : string := fst (NamespacedName req).

(** [ctrl.Result]; [ctrl.Result{}] is its zero value. *)
Record Result := mkResult { Requeue : bool; RequeueAfter : Z }.

Definition ResultZero : Result := mkResult false 0.

(** API errors, by the classes the reconciler and the spec distinguish. *)
Inductive Err :=
| ErrNotFound
| ErrConflict
| ErrAlreadyExists
| ErrOther (msg : string).

(** Go's [error]: [None] is nil. *)
Definition error : Type := option Err.

Definition IsNotFound (e : Err) : bool :=
  match e with
  | ErrNotFound => true
  | _ => false
  end.

(** [client.IgnoreNotFound]. *)
Definition IgnoreNotFound (e : Err) : error :=
  if IsNotFound e then None else Some e.

Definition GetFinalizers (p : PipelineRun) : list string := Finalizers (Meta p).

Definition SetFinalizers (p : PipelineRun) (f : list string) : PipelineRun :=
  mkPipelineRun
    (mkObjectMeta (Name (Meta p)) (Namespace (Meta p))
                  (DeletionTimestamp (Meta p)) f)
    (Spec p).

(** Modelled from the spec: [containsString] is a helper of this package
    declared outside the file at hand; it is the membership test on the
    finalizer list ("set-with-order-irrelevant for membership tests"). *)
Fixpoint containsString (slice : list string) (s : string) : bool :=
  match slice with
  | [] => false
  | item :: rest => if String.eqb item s then true else containsString rest s
  end.

(** [controllerutil.AddFinalizer]: append unless already there. *)
Definition AddFinalizer (p : PipelineRun) (finalizer : string) : PipelineRun :=
  if containsString (GetFinalizers p) finalizer then p
  else SetFinalizers p (GetFinalizers p ++ [finalizer]).

(** [controllerutil.RemoveFinalizer]: drop every occurrence. *)
Definition RemoveFinalizer (p : PipelineRun) (finalizer : string) : PipelineRun :=
  SetFinalizers p
    (List.filter (fun e => negb (String.eqb e finalizer)) (GetFinalizers p)).

(** ** The stores and the calls on them *)

(** The calls the reconciler issues.  [OpGet], [OpUpdate], [OpGetTkn] and
    [OpCreate] go through the controller-runtime client [r.Client];
    [OpTknGet] and [OpTknDelete] through the Tekton clientset. *)
Inductive Op :=
| OpGet (k : Key)
| OpUpdate (p : PipelineRun)
| OpGetTkn (k : Key)
| OpCreate (t : TknPipelineRun)
| OpTknGet (k : Key)
| OpTknDelete (k : Key).

(** A call that was issued, with the error it came back with. *)
Record Call := mkCall { call_op : Op; call_err : error }.

Definition is_mutation (o : Op) : bool :=
  match o with
  | OpUpdate _ | OpCreate _ | OpTknDelete _ => true
  | _ => false
  end.

Definition is_create (o : Op) : bool :=
  match o with
  | OpCreate _ => true
  | _ => false
  end.

(** The world a reconciliation runs in: both stores, the errors the
    environment is going to inject (one entry per store call, [None] for a
    call left alone; past the end of the schedule nothing is injected), and
    the calls issued so far, oldest first. *)
Record World := mkWorld {
  records : gmap Key PipelineRun;
  tekton : gmap Key TknPipelineRun;
  faults : list error;
  trace : list Call
}.

(** What the environment does to the [n]-th store call from now. *)
Definition fault_at (n : nat) (w : World) : error := nth n (faults w) None.

(** A world whose environment injects nothing. *)
Definition nominal (w : World) : bool :=
  forallb (fun f => match f with None => true | Some _ => false end) (faults w).

(** State passing: a Go method is a function of the world returning its Go
    results and the world it leaves. *)
Definition M (A : Type) : Type := World → A * World.

Definition ret {A} (a : A) : M A := fun w => (a, w).

Definition bind {A B} (m : M A) (f : A → M B) : M B :=
  fun w => let (a, w') := m w in f a w'.

Notation "'do' x <- m ; k" := (bind m (fun x => k))
  (at level 10, x name, m at level 100, k at level 200, only parsing).

(** One store call: consume the head of the fault schedule; an injected
    error fails the call and leaves the stores alone, otherwise the call
    takes its regular course [run] on the stores.  Either way it is
    logged. *)
Definition store_call {A} (o : Op)
    (fail : Err → A) (run : World → A * error * World) : M A :=
  fun w =>
    let w0 := mkWorld (records w) (tekton w) (tl (faults w)) (trace w) in
    match hd None (faults w) with
    | Some e =>
        (fail e, mkWorld (records w0) (tekton w0) (faults w0)
                         (trace w0 ++ [mkCall o (Some e)]))
    | None =>
        let '(a, err, w1) := run w0 in
        (a, mkWorld (records w1) (tekton w1) (faults w1)
                    (trace w1 ++ [mkCall o err]))
    end.

Definition obj_key (p : PipelineRun) : Key := (Namespace (Meta p), Name (Meta p)).

Definition tkn_key (t : TknPipelineRun) : Key :=
  (Namespace (TknMeta t), Name (TknMeta t)).

(** Modelled from the spec: the Record Store Adapter is an external
    collaborator; its contract is
    [get(key) -> Record | NotFound],
    [update(record) -> ok | Conflict | other-error],
    [getDerived(key) -> DerivedResource | NotFound],
    [createDerived(spec) -> ok | AlreadyExists | other-error],
    [deleteDerived(key) -> ok | NotFound-treated-as-ok | other-error].
    Conflicts and other errors are those of the fault schedule.  This is
    [get(key)]. *)
Definition client_Get (k : Key) : M (Err + PipelineRun) :=
  store_call (OpGet k) inl
    (fun w => match records w !! k with
              | Some p => (inr p, None, w)
              | None => (inl ErrNotFound, Some ErrNotFound, w)
              end).

(** Modelled from the spec: [update(record)], the record addressed by its
    own namespace and name; updating a record the store does not hold is
    NotFound. *)
Definition client_Update (p : PipelineRun) : M error :=
  store_call (OpUpdate p) Some
    (fun w => match records w !! obj_key p with
              | Some _ =>
                  (None, None,
                   mkWorld (<[obj_key p := p]> (records w)) (tekton w)
                           (faults w) (trace w))
              | None => (Some ErrNotFound, Some ErrNotFound, w)
              end).

(** Modelled from the spec: [getDerived(key)], reached through either
    client. *)
Definition lookup_tkn (o : Op) (k : Key) : M (Err + TknPipelineRun) :=
  store_call o inl
    (fun w => match tekton w !! k with
              | Some t => (inr t, None, w)
              | None => (inl ErrNotFound, Some ErrNotFound, w)
              end).

Definition client_GetTkn (k : Key) : M (Err + TknPipelineRun) :=
  lookup_tkn (OpGetTkn k) k.

Definition tkn_Get (k : Key) : M (Err + TknPipelineRun) :=
  lookup_tkn (OpTknGet k) k.

(** Modelled from the spec: [createDerived(spec)]. *)
Definition client_Create (t : TknPipelineRun) : M error :=
  store_call (OpCreate t) Some
    (fun w => match tekton w !! tkn_key t with
              | Some _ => (Some ErrAlreadyExists, Some ErrAlreadyExists, w)
              | None =>
                  (None, None,
                   mkWorld (records w) (<[tkn_key t := t]> (tekton w))
                           (faults w) (trace w))
              end).

(** Modelled from the spec: [deleteDerived(key)]; an absent object is the
    contract's NotFound-treated-as-ok. *)
Definition tkn_Delete (k : Key) : M error :=
  store_call (OpTknDelete k) Some
    (fun w => (None, None,
               mkWorld (records w) (delete k (tekton w))
                       (faults w) (trace w))).

(** ** The reconciler *)

Section Reconciler.

(** [devopsv2alpha1.PipelineRunFinalizerName], a constant of the API
    package. *)
Variable PipelineRunFinalizerName : string.

(** [deleteExternalResources]: any failure of the lookup ends the cleanup
    with nil; a failure of the delete is returned. *)
Definition deleteExternalResources (pipelineRun : PipelineRun) : M error :=
  let tknPipelineRunName := SpecName (Spec pipelineRun) in
  do found <- tkn_Get (Namespace (Meta pipelineRun), tknPipelineRunName);
  match found with
  | inl _ => ret None
  | inr _ =>
      do err <- tkn_Delete (Namespace (Meta pipelineRun), tknPipelineRunName);
      match err with
      | Some e => ret (Some e)
      | None => ret None
      end
  end.

(** The Tekton object [reconcileTektonPipelineRun] sets up. *)
Definition tektonPipelineRun (namespace : string) (pipelineRun : PipelineRunSpec)
    : TknPipelineRun :=
  mkTknPipelineRun
    (mkTypeMeta "PipelineRun" "tekton.dev/v1beta1")
    (mkObjectMeta (SpecName pipelineRun) namespace None [])
    (mkTknPipelineRunSpec (Some (mkTknPipelineRef (PipelineRef pipelineRun)))).

(** [reconcileTektonPipelineRun]: any failure of the lookup leads to the
    create. *)
Definition reconcileTektonPipelineRun (namespace : string)
    (pipelineRun : PipelineRunSpec) : M error :=
  do found <- client_GetTkn (namespace, SpecName pipelineRun);
  match found with
  | inl _ =>
      do err <- client_Create (tektonPipelineRun namespace pipelineRun);
      match err with
      | Some e => ret (Some e)
      | None => ret None
      end
  | inr _ => ret None
  end.

(** [reconcileTektonCrd]. *)
Definition reconcileTektonCrd (namespace : string) (pipelineRun : PipelineRun)
    : M error :=
  reconcileTektonPipelineRun namespace (Spec pipelineRun).

(** The third step of [Reconcile], reached by an active record only. *)
Definition Reconcile_third (req : Request) (pipelineRun : PipelineRun)
    : M (Result * error) :=
  do err <- reconcileTektonCrd (ReqNamespace req) pipelineRun;
  match err with
  | Some e => ret (ResultZero, Some e)
  | None => ret (ResultZero, None)
  end.

(** [Reconcile]. *)
Definition Reconcile (req : Request) : M (Result * error) :=
  do got <- client_Get (NamespacedName req);
  match got with
  | inl err => ret (ResultZero, IgnoreNotFound err)
  | inr pipelineRun =>
      if IsZero (DeletionTimestamp (Meta pipelineRun)) then
        if negb (containsString (GetFinalizers pipelineRun)
                                PipelineRunFinalizerName) then
          let pipelineRun' := AddFinalizer pipelineRun PipelineRunFinalizerName in
          do err <- client_Update pipelineRun';
          match err with
          | Some e => ret (ResultZero, Some e)
          | None => Reconcile_third req pipelineRun'
          end
        else Reconcile_third req pipelineRun
      else
        if containsString (GetFinalizers pipelineRun) PipelineRunFinalizerName then
          do err <- deleteExternalResources pipelineRun;
          match err with
          | Some e => ret (ResultZero, Some e)
          | None =>
              let pipelineRun' :=
                RemoveFinalizer pipelineRun PipelineRunFinalizerName in
              do err' <- client_Update pipelineRun';
              match err' with
              | Some e => ret (ResultZero, Some e)
              | None => ret (ResultZero, None)
              end
          end
        else ret (ResultZero, None)
  end.

End Reconciler.

(** ** What the scheduler makes of a return *)

(** Modelled from the spec: the outcome [{ok, retry(err), fatal(err)}] the
    external scheduler reads off the pair [Reconcile] returns.  A non-nil
    error is the retryable-error signal (no failure is fatal-and-drop); with
    a nil error the requeue fields alone can ask for another run. *)
Inductive ReconcileOutcome :=
| OutcomeOk
| OutcomeRetry (e : Err)
| OutcomeRequeue
| OutcomeFatal (e : Err).

Definition outcome (r : Result * error) : ReconcileOutcome :=
  match snd r with
  | Some e => OutcomeRetry e
  | None =>
      if Requeue (fst r) || (0 <? RequeueAfter (fst r))%Z
      then OutcomeRequeue else OutcomeOk
  end.

(** The calls a run added to the trace. *)
Definition new_calls (w w' : World) : list Call :=
  drop (length (trace w)) (trace w').

(** The world after one more logged call that left the stores alone. *)
Definition advance (w : World) (c : Call) : World :=
  mkWorld (records w) (tekton w) (tl (faults w)) (trace w ++ [c]).

Definition has_finalizer (fin : string) (p : PipelineRun) : bool :=
  containsString (GetFinalizers p) fin.

Definition active (p : PipelineRun) : bool := IsZero (DeletionTimestamp (Meta p)).

(** The Tekton object the reconciler looks for on behalf of a record:
    during cleanup under the record's own namespace, before creation under
    the namespace of the request. *)
Definition cleanup_key (p : PipelineRun) : Key :=
  (Namespace (Meta p), SpecName (Spec p)).

Definition target_key (req : Request) (p : PipelineRun) : Key :=
  (ReqNamespace req, SpecName (Spec p)).

(** Calls of a given kind that came back without error. *)
Definition succeeded (c : Call) : bool :=
  match call_err c with
  | None => true
  | Some _ => false
  end.

Definition creations (l : list Call) : list Call :=
  List.filter (fun c => is_create (call_op c) && succeeded c) l.

Definition mutations (l : list Call) : list Call :=
  List.filter (fun c => is_mutation (call_op c) && succeeded c) l.

(** The calls a cleanup issues in a world that lets every call through,
    and the calls and the Tekton store the creation step leaves there. *)
Definition cleanup_calls (p : PipelineRun) (T : gmap Key TknPipelineRun)
    : list Call :=
  match T !! cleanup_key p with
  | Some _ => [mkCall (OpTknGet (cleanup_key p)) None;
               mkCall (OpTknDelete (cleanup_key p)) None]
  | None => [mkCall (OpTknGet (cleanup_key p)) (Some ErrNotFound)]
  end.

Definition creation_calls (k : Key) (t : TknPipelineRun)
    (T : gmap Key TknPipelineRun) : list Call :=
  match T !! k with
  | Some _ => [mkCall (OpGetTkn k) None]
  | None => [mkCall (OpGetTkn k) (Some ErrNotFound); mkCall (OpCreate t) None]
  end.

Definition ensure_derived (k : Key) (t : TknPipelineRun)
    (T : gmap Key TknPipelineRun) : gmap Key TknPipelineRun :=
  match T !! k with
  | Some _ => T
  | None => <[k := t]> T
  end.

(** The two calls of the cleanup, the two calls of the creation step, and
    the two lookups among them. *)
Definition is_cleanup_op (o : Op) : bool :=
  match o with
  | OpTknGet _ | OpTknDelete _ => true
  | _ => false
  end.

Definition is_creation_op (o : Op) : bool :=
  match o with
  | OpGetTkn _ | OpCreate _ => true
  | _ => false
  end.

Definition is_lookup (o : Op) : bool :=
  match o with
  | OpGetTkn _ | OpTknGet _ => true
  | _ => false
  end.

(** The finalizers of a record other than a given one, in order. *)
Definition other_finalizers (fin : string) (p : PipelineRun) : list string :=
  List.filter (fun e => negb (String.eqb e fin)) (GetFinalizers p).

(** The record as the API server holds it once a delete request has been
    accepted: the deletion timestamp set, the rest as it was. *)
Definition mark_deleted (t : Time) (p : PipelineRun) : PipelineRun :=
  mkPipelineRun
    (mkObjectMeta (Name (Meta p)) (Namespace (Meta p)) (Some t)
                  (Finalizers (Meta p)))
    (Spec p).

(** A delete request accepted by the API server for the record under a
    key that still has finalizers: the record stays, marked. *)
Definition request_delete (t : Time) (k : Key) (w : World) : World :=
  mkWorld (alter (mark_deleted t) k (records w)) (tekton w) (faults w)
          (trace w).

(** ** Wiring the controllers into the manager ([addControllers]) *)

(** What the constructors called by [addControllers] return, one token per
    constructor, and [manager.Runnable] as an interface value: [None] is
    the nil interface a variable holds until a constructor's result is
    assigned to it. *)
Inductive Controller :=
| S2iBinaryController
| S2iRunController
| DevOpsProjectController
| DevOpsPipelineController
| DevOpsCredentialController
| JenkinsConfigController.

#[global] Instance Controller_eq_dec : EqDecision Controller.
Proof. solve_decision. Defined.

Definition Runnable : Type := option Controller.

(** The errors [addControllers] can return: one handed back by a callee, or
    the one it makes itself with [fmt.Errorf] from the given format. *)
Inductive BootError :=
| ErrExternal (msg : string)
| Errorf (format : string).

(** The options read: [s.PipelineBackend] and
    [s.KubernetesOptions.KubeConfig]. *)
Record Options := mkOptions {
  PipelineBackend : string;
  KubeConfig : string
}.

Section Boot.

Context {Config Clientset DevopsInterface : Type}.

(** The reconcilers set up through [SetupWithManager]; the Tekton ones
    carry the clientset they are built with. *)
Inductive Reconciler :=
| JenkinsPipelineRunReconciler
| TknPipelineReconciler (TknClientset : Clientset)
| TknPipelineRunReconciler (TknClientset : Clientset).

(** The manager, by what has been registered with it, oldest first. *)
Record Manager := mkManager {
  mgr_reconcilers : list Reconciler;
  mgr_runnables : list Controller
}.

(** The callees outside the repository: building the REST configuration
    and the Tekton clientset, registering a reconciler or a runnable with
    the manager (the error each returns, if any), and the order in which a
    [range] over a map visits its entries. *)
Record BootEnv := mkBootEnv {
  BuildConfigFromFlags : string → string → BootError + Config;
  NewForConfig : Config → BootError + Clientset;
  setup_error : Manager → Reconciler → option BootError;
  add_error : Manager → Controller → option BootError;
  range : gmap string Runnable → list (string * Runnable)
}.

Variable env : BootEnv.

(** [(&R{...}).SetupWithManager(mgr)] and [mgr.Add(ctrl)]: registered
    unless the callee reports an error. *)
Definition SetupWithManager (r : Reconciler) (mgr : Manager)
    : option BootError * Manager :=
  match setup_error env mgr r with
  | Some e => (Some e, mgr)
  | None =>
      (None, mkManager (mgr_reconcilers mgr ++ [r]) (mgr_runnables mgr))
  end.

Definition mgr_Add (c : Controller) (mgr : Manager)
    : option BootError * Manager :=
  match add_error env mgr c with
  | Some e => (Some e, mgr)
  | None =>
      (None, mkManager (mgr_reconcilers mgr) (mgr_runnables mgr ++ [c]))
  end.

(** The six controller variables of [addControllers]. *)
Record Vars := mkVars {
  s2iBinaryController : Runnable;
  s2iRunController : Runnable;
  devopsProjectController : Runnable;
  devopsPipelineController : Runnable;
  devopsCredentialController : Runnable;
  jenkinsConfigController : Runnable
}.

Definition backend_error (s : Options) : BootError :=
  Errorf ("Pipeline backend does not found. Expected value Jenkins or Tekton, but given "
          ++ PipelineBackend s)%string.

(** The block under [if devopsClient != nil]: the four controllers built
    whatever the backend, then the backend of the options. *)
Definition chooseBackend (s : Options) (mgr : Manager)
    : (BootError + Vars) * Manager :=
  let v :=
    mkVars (Some S2iBinaryController) (Some S2iRunController)
           (Some DevOpsProjectController) None
           (Some DevOpsCredentialController) None in
  if String.eqb (PipelineBackend s) "Jenkins" then
    let v' :=
      mkVars (s2iBinaryController v) (s2iRunController v)
             (devopsProjectController v) (Some DevOpsPipelineController)
             (devopsCredentialController v) (Some JenkinsConfigController) in
    match SetupWithManager JenkinsPipelineRunReconciler mgr with
    | (Some err, mgr') => (inl err, mgr')
    | (None, mgr') => (inr v', mgr')
    end
  else if String.eqb (PipelineBackend s) "Tekton" then
    match BuildConfigFromFlags env "" (KubeConfig s) with
    | inl err => (inl err, mgr)
    | inr cfg =>
        match NewForConfig env cfg with
        | inl err => (inl err, mgr)
        | inr tknClientset =>
            match SetupWithManager (TknPipelineReconciler tknClientset) mgr with
            | (Some err, mgr') => (inl err, mgr')
            | (None, mgr') =>
                match SetupWithManager
                        (TknPipelineRunReconciler tknClientset) mgr' with
                | (Some err, mgr'') => (inl err, mgr'')
                | (None, mgr'') => (inr v, mgr'')
                end
            end
        end
    end
  else (inl (backend_error s), mgr).

(** The map [controllers]: the literal with its two entries, and the four
    entries added under [if devopsClient != nil]. *)
Definition controllers_of (devopsClient : option DevopsInterface) (v : Vars)
    : gmap string Runnable :=
  let controllers : gmap string Runnable :=
    <["s2irun-controller" := s2iRunController v]>
      (<["s2ibinary-controller" := s2iBinaryController v]> ∅) in
  match devopsClient with
  | Some _ =>
      <["jenkinsconfig-controller" := jenkinsConfigController v]>
        (<["devopscredential-controller" := devopsCredentialController v]>
           (<["devopsprojects-controller" := devopsProjectController v]>
              (<["pipeline-controller" := devopsPipelineController v]>
                 controllers)))
  | None => controllers
  end.

(** The loop adding the controllers to the manager: nil ones are skipped,
    the first error ends it. *)
Fixpoint add_all (l : list (string * Runnable)) (mgr : Manager)
    : option BootError * Manager :=
  match l with
  | [] => (None, mgr)
  | (_, None) :: rest => add_all rest mgr
  | (_, Some ctrl) :: rest =>
      match mgr_Add ctrl mgr with
      | (Some err, mgr') => (Some err, mgr')
      | (None, mgr') => add_all rest mgr'
      end
  end.

(** [addControllers]. *)
Definition addControllers (devopsClient : option DevopsInterface)
    (s : Options) (mgr : Manager) : option BootError * Manager :=
  let nil_vars := mkVars None None None None None None in
  match
    match devopsClient with
    | Some _ => chooseBackend s mgr
    | None => (inr nil_vars, mgr)
    end
  with
  | (inl err, mgr') => (Some err, mgr')
  | (inr v, mgr') => add_all (range env (controllers_of devopsClient v)) mgr'
  end.

End Boot.

Arguments Reconciler : clear implicits.
Arguments Manager : clear implicits.
Arguments BootEnv : clear implicits.

(** ** Sample data *)

Definition sample_finalizer : string := "finalizers.kubesphere.io/pipelinerun".

Definition sample_req : Request := mkRequest ("ci", "build-1").

Definition sample_record (deleted : option Time) (fs : list string) : PipelineRun :=
  mkPipelineRun (mkObjectMeta "build-1" "ci" deleted fs)
                (mkPipelineRunSpec "build-1" "tpl-a").

Definition sample_derived : TknPipelineRun :=
  tektonPipelineRun "ci" (mkPipelineRunSpec "build-1" "tpl-a").

Definition sample_time : Time := mkTime 63900000000 0.

Definition sample_transient : Err := ErrOther "context deadline exceeded".

Definition fresh_record : PipelineRun := sample_record None [].

Definition registered_record : PipelineRun :=
  sample_record None [sample_finalizer].

Definition deleting_record : PipelineRun :=
  sample_record (Some sample_time) [sample_finalizer].

Definition released_record : PipelineRun :=
  sample_record (Some sample_time) [].

Definition sample_world (p : PipelineRun) (derived : bool) (fs : list error)
    : World :=
  mkWorld {[ ("ci", "build-1") := p ]}
          (if derived then {[ ("ci", "build-1") := sample_derived ]} else ∅)
          fs [].

(** A second record of the namespace that names the same Tekton object. *)
Definition twin_req : Request := mkRequest ("ci", "build-2").

Definition twin_record : PipelineRun :=
  mkPipelineRun (mkObjectMeta "build-2" "ci" None [sample_finalizer])
                (mkPipelineRunSpec "build-1" "tpl-b").

Definition twin_world : World :=
  mkWorld (<[("ci", "build-2") := twin_record]>
             {[ ("ci", "build-1") := deleting_record ]})
          {[ ("ci", "build-1") := sample_derived ]}
          [] [].

(** Callees that all go through, with the kubeconfig path standing for
    the configuration and the clientset built from it, and callees among
    which the set-up of the Tekton PipelineRun reconciler fails. *)
Definition sample_env : BootEnv string string :=
  mkBootEnv (fun _ path => inr path) (fun cfg => inr cfg)
            (fun _ _ => None) (fun _ _ => None) map_to_list.

Definition failing_env : BootEnv string string :=
  mkBootEnv (fun _ path => inr path) (fun cfg => inr cfg)
            (fun _ r => match r with
                        | TknPipelineRunReconciler _ =>
                            Some (ErrExternal "no kind is registered")
                        | _ => None
                        end)
            (fun _ _ => None) map_to_list.

Definition empty_manager : Manager string := mkManager [] [].

Definition tekton_options : Options := mkOptions "Tekton" "/etc/kubeconfig".

Definition jenkins_options : Options := mkOptions "Jenkins" "/etc/kubeconfig".

(** ** Single store calls *)

Lemma fault_at_advance n w c : fault_at n (advance w c) = fault_at (S n) w.
Proof.
  unfold fault_at, advance; simpl.
  destruct (faults w); [destruct n|]; reflexivity.
Qed.

Lemma fault_at_tl n R T w L :
  fault_at n (mkWorld R T (tl (faults w)) L) = fault_at (S n) w.
Proof.
  unfold fault_at; simpl.
  destruct (faults w); [destruct n|]; reflexivity.
Qed.

Lemma nominal_fault_at w n : nominal w = true → fault_at n w = None.
Proof.
  unfold nominal, fault_at. revert n.
  induction (faults w) as [|f fs IH]; intros n H; [destruct n; reflexivity|].
  simpl in H. apply andb_true_iff in H as [Hf Hfs].
  destruct n; simpl; [destruct f; [discriminate|reflexivity]|].
  apply IH, Hfs.
Qed.

Lemma nominal_tl R T w L :
  nominal w = true → nominal (mkWorld R T (tl (faults w)) L) = true.
Proof.
  unfold nominal; simpl. destruct (faults w) as [|f fs]; [reflexivity|].
  simpl. intros H. apply andb_true_iff in H. apply H.
Qed.

Lemma nominal_advance w c : nominal w = true → nominal (advance w c) = true.
Proof. apply nominal_tl. Qed.

Lemma store_call_fault {A} o (fail : Err → A) run w e :
  fault_at 0 w = Some e →
  store_call o fail run w = (fail e, advance w (mkCall o (Some e))).
Proof.
  unfold fault_at, store_call, advance.
  destruct (faults w) as [|f fs]; simpl; [discriminate|].
  intros ->. reflexivity.
Qed.

Lemma store_call_run {A} o (fail : Err → A) run w :
  fault_at 0 w = None →
  store_call o fail run w =
    let '(a, err, w1) :=
      run (mkWorld (records w) (tekton w) (tl (faults w)) (trace w)) in
    (a, mkWorld (records w1) (tekton w1) (faults w1)
                (trace w1 ++ [mkCall o err])).
Proof.
  unfold fault_at, store_call.
  destruct (faults w) as [|f fs]; simpl; [reflexivity|].
  intros ->. reflexivity.
Qed.

Lemma client_Get_found k w p :
  fault_at 0 w = None → records w !! k = Some p →
  client_Get k w = (inr p, advance w (mkCall (OpGet k) None)).
Proof.
  intros Hf Hk. unfold client_Get. rewrite store_call_run by exact Hf.
  simpl. rewrite Hk. reflexivity.
Qed.

Lemma client_Get_missing k w :
  fault_at 0 w = None → records w !! k = None →
  client_Get k w =
    (inl ErrNotFound, advance w (mkCall (OpGet k) (Some ErrNotFound))).
Proof.
  intros Hf Hk. unfold client_Get. rewrite store_call_run by exact Hf.
  simpl. rewrite Hk. reflexivity.
Qed.

Lemma client_Update_ok p w :
  fault_at 0 w = None → is_Some (records w !! obj_key p) →
  client_Update p w =
    (None, mkWorld (<[obj_key p := p]> (records w)) (tekton w)
                   (tl (faults w)) (trace w ++ [mkCall (OpUpdate p) None])).
Proof.
  intros Hf [q Hq]. unfold client_Update. rewrite store_call_run by exact Hf.
  simpl. rewrite Hq. reflexivity.
Qed.

Lemma lookup_tkn_found o k w t :
  fault_at 0 w = None → tekton w !! k = Some t →
  lookup_tkn o k w = (inr t, advance w (mkCall o None)).
Proof.
  intros Hf Hk. unfold lookup_tkn. rewrite store_call_run by exact Hf.
  simpl. rewrite Hk. reflexivity.
Qed.

Lemma lookup_tkn_missing o k w :
  fault_at 0 w = None → tekton w !! k = None →
  lookup_tkn o k w = (inl ErrNotFound, advance w (mkCall o (Some ErrNotFound))).
Proof.
  intros Hf Hk. unfold lookup_tkn. rewrite store_call_run by exact Hf.
  simpl. rewrite Hk. reflexivity.
Qed.

Lemma lookup_tkn_fault o k w e :
  fault_at 0 w = Some e →
  lookup_tkn o k w = (inl e, advance w (mkCall o (Some e))).
Proof. intros Hf. unfold lookup_tkn. apply store_call_fault, Hf. Qed.

Lemma client_Create_ok t w :
  fault_at 0 w = None → tekton w !! tkn_key t = None →
  client_Create t w =
    (None, mkWorld (records w) (<[tkn_key t := t]> (tekton w))
                   (tl (faults w)) (trace w ++ [mkCall (OpCreate t) None])).
Proof.
  intros Hf Hk. unfold client_Create. rewrite store_call_run by exact Hf.
  simpl. rewrite Hk. reflexivity.
Qed.

Lemma tkn_Delete_ok k w :
  fault_at 0 w = None →
  tkn_Delete k w =
    (None, mkWorld (records w) (delete k (tekton w))
                   (tl (faults w)) (trace w ++ [mkCall (OpTknDelete k) None])).
Proof.
  intros Hf. unfold tkn_Delete. rewrite store_call_run by exact Hf.
  reflexivity.
Qed.

Lemma tkn_Delete_fault k w e :
  fault_at 0 w = Some e →
  tkn_Delete k w = (Some e, advance w (mkCall (OpTknDelete k) (Some e))).
Proof. intros Hf. unfold tkn_Delete. apply store_call_fault, Hf. Qed.

Lemma new_calls_app w w' l : trace w' = trace w ++ l → new_calls w w' = l.
Proof. intros H. unfold new_calls. rewrite H. apply drop_app_length. Qed.

(** *** The finalizer list *)

Lemma containsString_In l s : containsString l s = true ↔ In s l.
Proof.
  induction l as [|x l IH]; simpl; [split; [discriminate|tauto]|].
  destruct (String.eqb_spec x s) as [->|Hne]; [tauto|].
  rewrite IH. split; [tauto|]. intros [H|H]; [congruence|exact H].
Qed.

Lemma containsString_app l s : containsString (l ++ [s]) s = true.
Proof. apply containsString_In, in_app_iff. right. left. reflexivity. Qed.

Lemma containsString_filter l s :
  containsString (List.filter (fun e => negb (String.eqb e s)) l) s = false.
Proof.
  apply not_true_is_false. rewrite containsString_In, filter_In.
  intros [_ H]. rewrite String.eqb_refl in H. discriminate.
Qed.

Lemma has_finalizer_Add fin' p : has_finalizer fin' (AddFinalizer p fin') = true.
Proof.
  unfold has_finalizer, AddFinalizer.
  destruct (containsString (GetFinalizers p) fin') eqn:H; [exact H|].
  apply containsString_app.
Qed.

Lemma has_finalizer_Remove fin' p :
  has_finalizer fin' (RemoveFinalizer p fin') = false.
Proof. apply containsString_filter. Qed.

Lemma count_occ_absent l s :
  containsString l s = false → count_occ string_dec (l ++ [s]) s = 1.
Proof.
  intros H. rewrite count_occ_app. simpl.
  destruct (string_dec s s) as [_|Hne]; [|congruence].
  assert (Hn : ¬ In s l) by (rewrite <- containsString_In, H; discriminate).
  apply (count_occ_not_In string_dec) in Hn. rewrite Hn. reflexivity.
Qed.

Lemma AddFinalizer_once fin' p :
  has_finalizer fin' p = false →
  count_occ string_dec (GetFinalizers (AddFinalizer p fin')) fin' = 1.
Proof.
  unfold has_finalizer, AddFinalizer. intros H. rewrite H.
  apply count_occ_absent, H.
Qed.

Lemma obj_key_Add fin' p : obj_key (AddFinalizer p fin') = obj_key p.
Proof. unfold AddFinalizer. destruct (containsString _ _); reflexivity. Qed.

Lemma Spec_Add fin' p : Spec (AddFinalizer p fin') = Spec p.
Proof. unfold AddFinalizer. destruct (containsString _ _); reflexivity. Qed.

(** ** Properties of the reconciler *)

Section Properties.

Variable fin : string.

Implicit Types (req : Request) (w : World) (p : PipelineRun) (e : Err).

(** *** The two steps that touch the Tekton store, with every call let
    through *)

Lemma cleanup_nominal p w :
  nominal w = true →
  ∃ w', deleteExternalResources p w = (None, w') ∧
        records w' = records w ∧
        tekton w' = delete (cleanup_key p) (tekton w) ∧
        trace w' = trace w ++ cleanup_calls p (tekton w) ∧
        nominal w' = true.
Proof.
  intros Hw. unfold deleteExternalResources, bind, tkn_Get, cleanup_calls.
  fold (cleanup_key p).
  pose proof (nominal_fault_at w 0 Hw) as H0.
  destruct (tekton w !! cleanup_key p) as [t|] eqn:Hk.
  - rewrite (lookup_tkn_found _ _ _ _ H0 Hk).
    rewrite tkn_Delete_ok
      by (rewrite fault_at_advance; apply nominal_fault_at, Hw).
    eexists; split; [reflexivity|]. simpl.
    repeat split.
    + rewrite <- app_assoc. reflexivity.
    + apply (nominal_tl _ _ (advance w (mkCall (OpTknGet (cleanup_key p)) None))),
        nominal_advance, Hw.
  - rewrite (lookup_tkn_missing _ _ _ H0 Hk).
    eexists; split; [reflexivity|]. simpl.
    repeat split.
    + symmetry. apply delete_id, Hk.
    + apply nominal_advance, Hw.
Qed.

Lemma third_nominal req p w :
  nominal w = true →
  ∃ w', Reconcile_third req p w = ((ResultZero, None), w') ∧
        records w' = records w ∧
        tekton w' =
          ensure_derived (target_key req p)
            (tektonPipelineRun (ReqNamespace req) (Spec p)) (tekton w) ∧
        trace w' =
          trace w ++
          creation_calls (target_key req p)
            (tektonPipelineRun (ReqNamespace req) (Spec p)) (tekton w) ∧
        nominal w' = true.
Proof.
  intros Hw.
  unfold Reconcile_third, reconcileTektonCrd, reconcileTektonPipelineRun,
    bind, client_GetTkn, creation_calls, ensure_derived.
  fold (target_key req p).
  pose proof (nominal_fault_at w 0 Hw) as H0.
  destruct (tekton w !! target_key req p) as [t|] eqn:Hk.
  - rewrite (lookup_tkn_found _ _ _ _ H0 Hk).
    eexists; split; [reflexivity|]. simpl.
    repeat split. apply nominal_advance, Hw.
  - rewrite (lookup_tkn_missing _ _ _ H0 Hk).
    rewrite client_Create_ok;
      [|rewrite fault_at_advance; apply nominal_fault_at, Hw|exact Hk].
    eexists; split; [reflexivity|]. simpl.
    repeat split.
    + rewrite <- app_assoc. reflexivity.
    + apply (nominal_tl _ _
               (advance w (mkCall (OpGetTkn (target_key req p))
                                  (Some ErrNotFound)))),
        nominal_advance, Hw.
Qed.

(** *** [Reconcile], branch by branch, with every call let through *)

Lemma Reconcile_registers req w p :
  nominal w = true →
  records w !! NamespacedName req = Some p →
  obj_key p = NamespacedName req →
  active p = true →
  has_finalizer fin p = false →
  ∃ w', Reconcile fin req w = ((ResultZero, None), w') ∧
        records w' = <[NamespacedName req := AddFinalizer p fin]> (records w) ∧
        tekton w' =
          ensure_derived (target_key req p)
            (tektonPipelineRun (ReqNamespace req) (Spec p)) (tekton w) ∧
        trace w' =
          trace w ++
          [mkCall (OpGet (NamespacedName req)) None;
           mkCall (OpUpdate (AddFinalizer p fin)) None] ++
          creation_calls (target_key req p)
            (tektonPipelineRun (ReqNamespace req) (Spec p)) (tekton w) ∧
        nominal w' = true.
Proof.
  intros Hw Hk Hkey Hact Hfin. unfold Reconcile, bind.
  rewrite (client_Get_found _ _ _ (nominal_fault_at w 0 Hw) Hk).
  unfold active in Hact. rewrite Hact.
  unfold has_finalizer in Hfin. rewrite Hfin. change (negb false) with true; change (negb true) with false. cbv beta iota.
  set (w1 := advance w (mkCall (OpGet (NamespacedName req)) None)).
  assert (Hw1 : nominal w1 = true) by apply nominal_advance, Hw.
  rewrite client_Update_ok;
    [|apply nominal_fault_at, Hw1
     |rewrite obj_key_Add, Hkey; simpl; rewrite Hk; eauto].
  match goal with |- context [Reconcile_third _ _ ?w2] =>
    destruct (third_nominal req (AddFinalizer p fin) w2)
      as (w' & -> & Hr & Ht & Hl & Hn);
      [apply (nominal_tl _ _ w1), Hw1|]
  end.
  exists w'. split; [reflexivity|].
  unfold target_key in *. rewrite Spec_Add in *.
  rewrite Hr, Ht, Hl. simpl. rewrite obj_key_Add, Hkey.
  repeat split; [|exact Hn].
  rewrite <- !app_assoc. reflexivity.
Qed.

Lemma Reconcile_steady req w p :
  nominal w = true →
  records w !! NamespacedName req = Some p →
  active p = true →
  has_finalizer fin p = true →
  ∃ w', Reconcile fin req w = ((ResultZero, None), w') ∧
        records w' = records w ∧
        tekton w' =
          ensure_derived (target_key req p)
            (tektonPipelineRun (ReqNamespace req) (Spec p)) (tekton w) ∧
        trace w' =
          trace w ++
          [mkCall (OpGet (NamespacedName req)) None] ++
          creation_calls (target_key req p)
            (tektonPipelineRun (ReqNamespace req) (Spec p)) (tekton w) ∧
        nominal w' = true.
Proof.
  intros Hw Hk Hact Hfin. unfold Reconcile, bind.
  rewrite (client_Get_found _ _ _ (nominal_fault_at w 0 Hw) Hk).
  unfold active in Hact. rewrite Hact.
  unfold has_finalizer in Hfin. rewrite Hfin. change (negb false) with true; change (negb true) with false. cbv beta iota.
  match goal with |- context [Reconcile_third _ _ ?w1] =>
    destruct (third_nominal req p w1) as (w' & -> & Hr & Ht & Hl & Hn);
      [apply nominal_advance, Hw|]
  end.
  exists w'. split; [reflexivity|].
  rewrite Hr, Ht, Hl. simpl.
  repeat split; [|exact Hn].
  rewrite <- !app_assoc. reflexivity.
Qed.

Lemma Reconcile_finalizes req w p :
  nominal w = true →
  records w !! NamespacedName req = Some p →
  obj_key p = NamespacedName req →
  active p = false →
  has_finalizer fin p = true →
  ∃ w', Reconcile fin req w = ((ResultZero, None), w') ∧
        records w' =
          <[NamespacedName req := RemoveFinalizer p fin]> (records w) ∧
        tekton w' = delete (cleanup_key p) (tekton w) ∧
        trace w' =
          trace w ++
          [mkCall (OpGet (NamespacedName req)) None] ++
          cleanup_calls p (tekton w) ++
          [mkCall (OpUpdate (RemoveFinalizer p fin)) None] ∧
        nominal w' = true.
Proof.
  intros Hw Hk Hkey Hact Hfin. unfold Reconcile, bind.
  rewrite (client_Get_found _ _ _ (nominal_fault_at w 0 Hw) Hk).
  unfold active in Hact. rewrite Hact.
  unfold has_finalizer in Hfin. rewrite Hfin. cbv beta iota.
  match goal with |- context [deleteExternalResources _ ?w1] =>
    destruct (cleanup_nominal p w1) as (w2 & -> & Hr & Ht & Hl & Hn);
      [apply nominal_advance, Hw|]
  end.
  rewrite client_Update_ok;
    [|apply nominal_fault_at, Hn
     |change (obj_key (RemoveFinalizer p fin)) with (obj_key p);
      rewrite Hkey, Hr; simpl; rewrite Hk; eauto].
  eexists; split; [reflexivity|]. simpl.
  change (obj_key (RemoveFinalizer p fin)) with (obj_key p).
  rewrite Hkey, Hr, Ht, Hl. simpl.
  repeat split; [|apply nominal_tl, Hn].
  rewrite <- !app_assoc. reflexivity.
Qed.

Lemma Reconcile_released req w p :
  fault_at 0 w = None →
  records w !! NamespacedName req = Some p →
  active p = false →
  has_finalizer fin p = false →
  Reconcile fin req w =
    ((ResultZero, None), advance w (mkCall (OpGet (NamespacedName req)) None)).
Proof.
  intros H0 Hk Hact Hfin. unfold Reconcile, bind.
  rewrite (client_Get_found _ _ _ H0 Hk).
  unfold active in Hact. rewrite Hact.
  unfold has_finalizer in Hfin. rewrite Hfin. reflexivity.
Qed.

Lemma Reconcile_gone req w :
  fault_at 0 w = None →
  records w !! NamespacedName req = None →
  Reconcile fin req w =
    ((ResultZero, None),
     advance w (mkCall (OpGet (NamespacedName req)) (Some ErrNotFound))).
Proof.
  intros H0 Hk. unfold Reconcile, bind.
  rewrite (client_Get_missing _ _ H0 Hk). reflexivity.
Qed.

(** C1 (amended): for an active record without the finalizer marker, in a
    world that lets every call through, one call of [Reconcile] adds the
    marker exactly once and persists the record before it issues any call
    on the Tekton store; the same call then goes on to the creation step,
    which creates the derived resource when none exists under the target
    name, and returns ok. *)
Theorem reconcile_registers_then_creates req w p :
  nominal w = true →
  records w !! NamespacedName req = Some p →
  obj_key p = NamespacedName req →
  active p = true →
  has_finalizer fin p = false →
  fst (Reconcile fin req w) = (ResultZero, None) ∧
  records (snd (Reconcile fin req w)) !! NamespacedName req =
    Some (AddFinalizer p fin) ∧
  has_finalizer fin (AddFinalizer p fin) = true ∧
  count_occ string_dec (GetFinalizers (AddFinalizer p fin)) fin = 1 ∧
  new_calls w (snd (Reconcile fin req w)) =
    [mkCall (OpGet (NamespacedName req)) None;
     mkCall (OpUpdate (AddFinalizer p fin)) None] ++
    creation_calls (target_key req p)
      (tektonPipelineRun (ReqNamespace req) (Spec p)) (tekton w) ∧
  tekton (snd (Reconcile fin req w)) =
    ensure_derived (target_key req p)
      (tektonPipelineRun (ReqNamespace req) (Spec p)) (tekton w) ∧
  tekton (snd (Reconcile fin req w)) !! target_key req p =
    Some (default (tektonPipelineRun (ReqNamespace req) (Spec p))
                  (tekton w !! target_key req p)).
Proof.
  intros Hw Hk Hkey Hact Hfin.
  destruct (Reconcile_registers req w p Hw Hk Hkey Hact Hfin)
    as (w' & -> & Hr & Ht & Hl & _).
  simpl. rewrite Hr, Ht.
  repeat split.
  - apply lookup_insert_eq.
  - apply has_finalizer_Add.
  - apply AddFinalizer_once, Hfin.
  - apply new_calls_app, Hl.
  - unfold ensure_derived.
    destruct (tekton w !! target_key req p) as [t|] eqn:Hd; simpl.
    + exact Hd.
    + apply lookup_insert_eq.
Qed.

(** C2: for a record under deletion that carries the finalizer marker, in a
    world that lets every call through, [Reconcile] first cleans up (looks
    the derived resource up and deletes it if it is there) and only then
    persists the record without the marker; it returns ok.  Running
    [Reconcile] again afterwards, on the record as stored or on a store the
    record has been purged from, returns ok and changes nothing. *)
Theorem reconcile_cleans_up_then_releases req w p :
  nominal w = true →
  records w !! NamespacedName req = Some p →
  obj_key p = NamespacedName req →
  active p = false →
  has_finalizer fin p = true →
  let w1 := snd (Reconcile fin req w) in
  let purged :=
    mkWorld (delete (NamespacedName req) (records w1)) (tekton w1)
            (faults w1) (trace w1) in
  fst (Reconcile fin req w) = (ResultZero, None) ∧
  new_calls w w1 =
    [mkCall (OpGet (NamespacedName req)) None] ++
    cleanup_calls p (tekton w) ++
    [mkCall (OpUpdate (RemoveFinalizer p fin)) None] ∧
  tekton w1 = delete (cleanup_key p) (tekton w) ∧
  tekton w1 !! cleanup_key p = None ∧
  records w1 = <[NamespacedName req := RemoveFinalizer p fin]> (records w) ∧
  has_finalizer fin (RemoveFinalizer p fin) = false ∧
  (fst (Reconcile fin req w1) = (ResultZero, None) ∧
   records (snd (Reconcile fin req w1)) = records w1 ∧
   tekton (snd (Reconcile fin req w1)) = tekton w1 ∧
   mutations (new_calls w1 (snd (Reconcile fin req w1))) = []) ∧
  (fst (Reconcile fin req purged) = (ResultZero, None) ∧
   records (snd (Reconcile fin req purged)) = records purged ∧
   tekton (snd (Reconcile fin req purged)) = tekton purged ∧
   mutations (new_calls purged (snd (Reconcile fin req purged))) = []).
Proof.
  intros Hw Hk Hkey Hact Hfin.
  destruct (Reconcile_finalizes req w p Hw Hk Hkey Hact Hfin)
    as (w' & -> & Hr & Ht & Hl & Hn).
  cbn zeta. change (snd (ResultZero, None, w')) with w'.
  change (fst (ResultZero, @None Err, w')) with (ResultZero, @None Err).
  assert (Hk' : records w' !! NamespacedName req = Some (RemoveFinalizer p fin))
    by (rewrite Hr; apply lookup_insert_eq).
  split; [reflexivity|].
  split; [apply new_calls_app, Hl|].
  split; [exact Ht|].
  split; [rewrite Ht; apply lookup_delete_eq|].
  split; [exact Hr|].
  split; [apply has_finalizer_Remove|].
  split.
  - rewrite (Reconcile_released req w' (RemoveFinalizer p fin));
      [|apply nominal_fault_at, Hn|exact Hk'|exact Hact
       |apply has_finalizer_Remove].
    simpl. repeat split.
    erewrite new_calls_app by reflexivity. reflexivity.
  - rewrite Reconcile_gone;
      [|apply (nominal_fault_at w' 0 Hn)|simpl; apply lookup_delete_eq].
    simpl. repeat split.
    erewrite new_calls_app by reflexivity. reflexivity.
Qed.

(** C3: for an active record that carries the finalizer marker and has no
    Tekton object under its target name, in a world that lets every call
    through, [Reconcile] issues exactly one create; the object created is
    named by the record's [Spec.Name], refers to the record's
    [Spec.PipelineRef], and holds nothing else of the record (the remaining
    fields are the two type constants, the namespace of the request and
    zero values).  The Tekton store grows by that one object and the record
    store is left alone. *)
Theorem reconcile_creates_derived req w p :
  nominal w = true →
  records w !! NamespacedName req = Some p →
  active p = true →
  has_finalizer fin p = true →
  tekton w !! target_key req p = None →
  let created :=
    mkTknPipelineRun
      (mkTypeMeta "PipelineRun" "tekton.dev/v1beta1")
      (mkObjectMeta (SpecName (Spec p)) (ReqNamespace req) None [])
      (mkTknPipelineRunSpec (Some (mkTknPipelineRef (PipelineRef (Spec p))))) in
  fst (Reconcile fin req w) = (ResultZero, None) ∧
  new_calls w (snd (Reconcile fin req w)) =
    [mkCall (OpGet (NamespacedName req)) None;
     mkCall (OpGetTkn (target_key req p)) (Some ErrNotFound);
     mkCall (OpCreate created) None] ∧
  creations (new_calls w (snd (Reconcile fin req w))) =
    [mkCall (OpCreate created) None] ∧
  tekton (snd (Reconcile fin req w)) =
    <[target_key req p := created]> (tekton w) ∧
  size (tekton (snd (Reconcile fin req w))) = S (size (tekton w)) ∧
  records (snd (Reconcile fin req w)) = records w ∧
  Name (TknMeta created) = SpecName (Spec p) ∧
  (RefName <$> TknPipelineRef_ (TknSpec created)) = Some (PipelineRef (Spec p)).
Proof.
  intros Hw Hk Hact Hfin Hd created.
  destruct (Reconcile_steady req w p Hw Hk Hact Hfin)
    as (w' & -> & Hr & Ht & Hl & _).
  unfold creation_calls, ensure_derived in *. rewrite Hd in *.
  fold created in Ht, Hl.
  simpl fst; simpl snd.
  rewrite (new_calls_app _ _ _ Hl), Ht, Hr.
  repeat split.
  apply map_size_insert_None, Hd.
Qed.

(** C4 (amended): for an active record that carries the finalizer marker
    and whose derived resource exists, in a world that lets every call
    through, [Reconcile] returns ok after its two reads and changes neither
    store (no update, create or delete is issued); running it again on the
    world it left gives the same result, the same calls and the same
    stores. *)
Theorem reconcile_existing_derived_untouched req w p t :
  nominal w = true →
  records w !! NamespacedName req = Some p →
  active p = true →
  has_finalizer fin p = true →
  tekton w !! target_key req p = Some t →
  let w1 := snd (Reconcile fin req w) in
  fst (Reconcile fin req w) = (ResultZero, None) ∧
  records w1 = records w ∧
  tekton w1 = tekton w ∧
  new_calls w w1 =
    [mkCall (OpGet (NamespacedName req)) None;
     mkCall (OpGetTkn (target_key req p)) None] ∧
  mutations (new_calls w w1) = [] ∧
  fst (Reconcile fin req w1) = fst (Reconcile fin req w) ∧
  records (snd (Reconcile fin req w1)) = records w1 ∧
  tekton (snd (Reconcile fin req w1)) = tekton w1 ∧
  new_calls w1 (snd (Reconcile fin req w1)) = new_calls w w1.
Proof.
  intros Hw Hk Hact Hfin Hd.
  destruct (Reconcile_steady req w p Hw Hk Hact Hfin)
    as (w' & -> & Hr & Ht & Hl & Hn).
  unfold creation_calls, ensure_derived in *. rewrite Hd in *.
  cbn zeta. simpl fst; simpl snd.
  rewrite (new_calls_app _ _ _ Hl), Ht, Hr.
  destruct (Reconcile_steady req w' p Hn) as (w'' & -> & Hr' & Ht' & Hl' & _);
    [rewrite Hr; exact Hk|exact Hact|exact Hfin|].
  unfold creation_calls, ensure_derived in *. rewrite Ht, Hd in *.
  simpl fst; simpl snd.
  rewrite (new_calls_app _ _ _ Hl'), Ht', Hr', Hr.
  repeat split.
Qed.

(** *** A cleanup whose delete is failed by the environment *)

Lemma client_Update_trace p w :
  trace (snd (client_Update p w)) =
    trace w ++ [mkCall (OpUpdate p) (fst (client_Update p w))].
Proof.
  unfold client_Update, store_call.
  repeat (case_match; simplify_eq; simpl); reflexivity.
Qed.

Lemma Reconcile_delete_fails req w p t e :
  records w !! NamespacedName req = Some p →
  active p = false →
  has_finalizer fin p = true →
  tekton w !! cleanup_key p = Some t →
  fault_at 0 w = None →
  fault_at 1 w = None →
  fault_at 2 w = Some e →
  Reconcile fin req w =
    ((ResultZero, Some e),
     advance
       (advance
          (advance w (mkCall (OpGet (NamespacedName req)) None))
          (mkCall (OpTknGet (cleanup_key p)) None))
       (mkCall (OpTknDelete (cleanup_key p)) (Some e))).
Proof.
  intros Hk Hact Hfin Hd H0 H1 H2. unfold Reconcile, bind.
  rewrite (client_Get_found _ _ _ H0 Hk).
  unfold active in Hact. rewrite Hact.
  unfold has_finalizer in Hfin. rewrite Hfin. cbv beta iota.
  unfold deleteExternalResources, bind, tkn_Get. fold (cleanup_key p).
  rewrite (lookup_tkn_found _ _ _ t) by (rewrite ?fault_at_advance; assumption).
  rewrite (tkn_Delete_fault _ _ e) by (rewrite !fault_at_advance; assumption).
  reflexivity.
Qed.

Lemma Reconcile_attempts_delete req w p t :
  records w !! NamespacedName req = Some p →
  active p = false →
  has_finalizer fin p = true →
  tekton w !! cleanup_key p = Some t →
  fault_at 0 w = None →
  fault_at 1 w = None →
  ∃ r, In (mkCall (OpTknDelete (cleanup_key p)) r)
          (new_calls w (snd (Reconcile fin req w))).
Proof.
  intros Hk Hact Hfin Hd H0 H1.
  destruct (fault_at 2 w) as [e|] eqn:H2.
  - rewrite (Reconcile_delete_fails req w p t e) by assumption.
    exists (Some e). erewrite new_calls_app.
    2:{ simpl. rewrite <- !app_assoc. reflexivity. }
    simpl. auto.
  - unfold Reconcile, bind.
    rewrite (client_Get_found _ _ _ H0 Hk).
    unfold active in Hact. rewrite Hact.
    unfold has_finalizer in Hfin. rewrite Hfin. cbv beta iota.
    unfold deleteExternalResources, bind, tkn_Get. fold (cleanup_key p).
    rewrite (lookup_tkn_found _ _ _ t) by (rewrite ?fault_at_advance; assumption).
    rewrite tkn_Delete_ok by (rewrite !fault_at_advance; assumption).
    unfold ret.
    match goal with |- context [client_Update ?q ?w3] =>
      pose proof (client_Update_trace q w3) as Hu;
      destruct (client_Update q w3) as [r w4]
    end.
    exists None. simpl in Hu.
    assert (Hl : trace w4 =
                 trace w ++
                 [mkCall (OpGet (NamespacedName req)) None;
                  mkCall (OpTknGet (cleanup_key p)) None;
                  mkCall (OpTknDelete (cleanup_key p)) None;
                  mkCall (OpUpdate (RemoveFinalizer p fin)) r])
      by (rewrite Hu, <- !app_assoc; reflexivity).
    destruct r as [e'|]; simpl;
      rewrite (new_calls_app _ _ _ Hl); simpl; auto.
Qed.

(** C5: when the record is under deletion with the marker, the derived
    resource is found and the delete call on it fails, [Reconcile] returns
    that error, which the scheduler reads as a retry; no update is issued,
    so the record keeps its marker and both stores are as before; and the
    next run, once its two reads get through, issues the delete again. *)
Theorem reconcile_delete_failure_retries req w p t e :
  records w !! NamespacedName req = Some p →
  active p = false →
  has_finalizer fin p = true →
  tekton w !! cleanup_key p = Some t →
  fault_at 0 w = None →
  fault_at 1 w = None →
  fault_at 2 w = Some e →
  fault_at 3 w = None →
  fault_at 4 w = None →
  let w1 := snd (Reconcile fin req w) in
  fst (Reconcile fin req w) = (ResultZero, Some e) ∧
  outcome (fst (Reconcile fin req w)) = OutcomeRetry e ∧
  new_calls w w1 =
    [mkCall (OpGet (NamespacedName req)) None;
     mkCall (OpTknGet (cleanup_key p)) None;
     mkCall (OpTknDelete (cleanup_key p)) (Some e)] ∧
  records w1 = records w ∧
  records w1 !! NamespacedName req = Some p ∧
  tekton w1 = tekton w ∧
  ∃ r, In (mkCall (OpTknDelete (cleanup_key p)) r)
          (new_calls w1 (snd (Reconcile fin req w1))).
Proof.
  intros Hk Hact Hfin Hd H0 H1 H2 H3 H4.
  rewrite (Reconcile_delete_fails req w p t e) by assumption.
  cbn zeta. simpl fst; simpl snd.
  split; [reflexivity|]. split; [reflexivity|].
  split; [apply new_calls_app; simpl; rewrite <- !app_assoc; reflexivity|].
  split; [reflexivity|]. split; [exact Hk|]. split; [reflexivity|].
  apply (Reconcile_attempts_delete req _ p t); try assumption;
    rewrite !fault_at_advance; assumption.
Qed.

(** C6: when the record is under deletion with the marker and no derived
    resource is there, in a world that lets every call through, the cleanup
    returns nil without touching the Tekton store and [Reconcile] goes on
    to persist the record without the marker and returns ok. *)
Theorem reconcile_releases_without_derived req w p :
  nominal w = true →
  records w !! NamespacedName req = Some p →
  obj_key p = NamespacedName req →
  active p = false →
  has_finalizer fin p = true →
  tekton w !! cleanup_key p = None →
  let w1 := snd (Reconcile fin req w) in
  fst (deleteExternalResources p
         (advance w (mkCall (OpGet (NamespacedName req)) None))) = None ∧
  fst (Reconcile fin req w) = (ResultZero, None) ∧
  outcome (fst (Reconcile fin req w)) = OutcomeOk ∧
  new_calls w w1 =
    [mkCall (OpGet (NamespacedName req)) None;
     mkCall (OpTknGet (cleanup_key p)) (Some ErrNotFound);
     mkCall (OpUpdate (RemoveFinalizer p fin)) None] ∧
  records w1 !! NamespacedName req = Some (RemoveFinalizer p fin) ∧
  has_finalizer fin (RemoveFinalizer p fin) = false ∧
  tekton w1 = tekton w.
Proof.
  intros Hw Hk Hkey Hact Hfin Hd.
  destruct (cleanup_nominal p
              (advance w (mkCall (OpGet (NamespacedName req)) None)))
    as (w0 & -> & _); [apply nominal_advance, Hw|].
  destruct (Reconcile_finalizes req w p Hw Hk Hkey Hact Hfin)
    as (w' & -> & Hr & Ht & Hl & _).
  unfold cleanup_calls in Hl. rewrite Hd in Hl.
  cbn zeta. simpl fst; simpl snd.
  rewrite (new_calls_app _ _ _ Hl), Hr, Ht.
  repeat split.
  - apply lookup_insert_eq.
  - apply has_finalizer_Remove.
  - apply delete_id, Hd.
Qed.

(** *** A cleanup whose lookup is failed by the environment *)

Lemma Reconcile_cleanup_lookup_fails req w p e :
  records w !! NamespacedName req = Some p →
  obj_key p = NamespacedName req →
  active p = false →
  has_finalizer fin p = true →
  fault_at 0 w = None →
  fault_at 1 w = Some e →
  fault_at 2 w = None →
  fst (Reconcile fin req w) = (ResultZero, None) ∧
  records (snd (Reconcile fin req w)) !! NamespacedName req =
    Some (RemoveFinalizer p fin) ∧
  tekton (snd (Reconcile fin req w)) = tekton w.
Proof.
  intros Hk Hkey Hact Hfin H0 H1 H2. unfold Reconcile, bind.
  rewrite (client_Get_found _ _ _ H0 Hk).
  unfold active in Hact. rewrite Hact.
  unfold has_finalizer in Hfin. rewrite Hfin. cbv beta iota.
  unfold deleteExternalResources, bind, tkn_Get.
  rewrite (lookup_tkn_fault _ _ _ e) by (rewrite fault_at_advance; exact H1).
  unfold ret.
  rewrite client_Update_ok;
    [|rewrite !fault_at_advance; exact H2
     |change (obj_key (RemoveFinalizer p fin)) with (obj_key p);
      rewrite Hkey; simpl; rewrite Hk; eauto].
  simpl. change (obj_key (RemoveFinalizer p fin)) with (obj_key p).
  rewrite Hkey. repeat split. apply lookup_insert_eq.
Qed.

(** C7: when the store holds no record under the key, [Reconcile] returns
    ok with a nil error and changes neither store; the fetch is the only
    call it issues. *)
Theorem reconcile_record_gone req w :
  records w !! NamespacedName req = None →
  fault_at 0 w = None →
  fst (Reconcile fin req w) = (ResultZero, None) ∧
  outcome (fst (Reconcile fin req w)) = OutcomeOk ∧
  records (snd (Reconcile fin req w)) = records w ∧
  tekton (snd (Reconcile fin req w)) = tekton w ∧
  new_calls w (snd (Reconcile fin req w)) =
    [mkCall (OpGet (NamespacedName req)) (Some ErrNotFound)].
Proof.
  intros Hk Hf. rewrite (Reconcile_gone req w Hf Hk). simpl.
  repeat split. apply new_calls_app. reflexivity.
Qed.

(** *** Failed updates *)

Lemma Reconcile_failed_update req w p p' e :
  records w !! NamespacedName req = Some p →
  In (mkCall (OpUpdate p') (Some e))
     (new_calls w (snd (Reconcile fin req w))) →
  fst (Reconcile fin req w) = (ResultZero, Some e) ∧
  records (snd (Reconcile fin req w)) = records w ∧
  ((active p = true ∧ has_finalizer fin p = false ∧
    p' = AddFinalizer p fin) ∨
   (active p = false ∧ has_finalizer fin p = true ∧
    p' = RemoveFinalizer p fin)).
Proof.
  intros Hk. unfold active, has_finalizer.
  unfold Reconcile, Reconcile_third, reconcileTektonCrd,
    reconcileTektonPipelineRun, deleteExternalResources, bind, ret,
    client_Get, client_Update, client_GetTkn, client_Create, tkn_Get,
    tkn_Delete, lookup_tkn, store_call, new_calls.
  destruct (hd None (faults w)) as [e0|]; simpl; rewrite ?Hk; simpl;
    [rewrite drop_app_length; simpl; intros [Hc|[]]; discriminate|].
  destruct (IsZero (DeletionTimestamp (Meta p)));
    destruct (containsString (GetFinalizers p) fin); simpl;
    repeat (case_match; simplify_eq; simpl in * );
    rewrite <- ?app_assoc, drop_app_length; simpl;
    intros Hin; intuition (simplify_eq; auto).
Qed.

(** C9: whenever an update of the record issued by [Reconcile] (the one
    persisting the added marker or the one persisting its removal) comes
    back with a conflict, [Reconcile] returns that conflict as its error,
    which the scheduler reads as a retry and never as fatal, and the stored
    record is as before; the next run, in a world that lets every call
    through, starts by fetching the record again, issues the same update,
    which now persists, and returns ok. *)
Theorem reconcile_conflict_is_retryable req w p p' :
  records w !! NamespacedName req = Some p →
  obj_key p = NamespacedName req →
  In (mkCall (OpUpdate p') (Some ErrConflict))
     (new_calls w (snd (Reconcile fin req w))) →
  nominal (snd (Reconcile fin req w)) = true →
  let w1 := snd (Reconcile fin req w) in
  let w2 := snd (Reconcile fin req w1) in
  fst (Reconcile fin req w) = (ResultZero, Some ErrConflict) ∧
  outcome (fst (Reconcile fin req w)) = OutcomeRetry ErrConflict ∧
  (∀ e, outcome (fst (Reconcile fin req w)) ≠ OutcomeFatal e) ∧
  records w1 = records w ∧
  (p' = AddFinalizer p fin ∨ p' = RemoveFinalizer p fin) ∧
  fst (Reconcile fin req w1) = (ResultZero, None) ∧
  hd_error (new_calls w1 w2) = Some (mkCall (OpGet (NamespacedName req)) None) ∧
  In (mkCall (OpUpdate p') None) (new_calls w1 w2) ∧
  records w2 = <[NamespacedName req := p']> (records w).
Proof.
  intros Hk Hkey Hin Hn.
  destruct (Reconcile_failed_update req w p p' ErrConflict Hk Hin)
    as (Hres & Hrec & Hcase).
  cbn zeta. rewrite Hres.
  split; [reflexivity|]. split; [reflexivity|].
  split; [intros e; discriminate|]. split; [exact Hrec|].
  assert (Hk1 : records (snd (Reconcile fin req w)) !! NamespacedName req =
                Some p) by (rewrite Hrec; exact Hk).
  destruct Hcase as [(Hact & Hfin & ->)|(Hact & Hfin & ->)].
  - destruct (Reconcile_registers req _ p Hn Hk1 Hkey Hact Hfin)
      as (w2 & -> & Hr & _ & Hl & _).
    simpl fst; simpl snd.
    rewrite (new_calls_app _ _ _ Hl), Hr, Hrec. simpl.
    repeat split; auto.
  - destruct (Reconcile_finalizes req _ p Hn Hk1 Hkey Hact Hfin)
      as (w2 & -> & Hr & _ & Hl & _).
    simpl fst; simpl snd.
    rewrite (new_calls_app _ _ _ Hl), Hr, Hrec. simpl.
    repeat split; auto.
    right. apply in_app_iff. right. left. reflexivity.
Qed.

(** Every return statement of [Reconcile] carries [ctrl.Result{}]. *)
Lemma Reconcile_result_zero req w : fst (fst (Reconcile fin req w)) = ResultZero.
Proof.
  unfold Reconcile, Reconcile_third, reconcileTektonCrd,
    reconcileTektonPipelineRun, deleteExternalResources, bind, ret.
  repeat (case_match; simpl); reflexivity.
Qed.

(** C10: whatever the key and the state of the stores (injected failures
    included), the result [Reconcile] returns has its requeue flag unset
    and no requeue delay, so the scheduler sees either ok (nil error) or a
    retry carried by a non-nil error, never a requeue by flag. *)
Theorem reconcile_never_sets_requeue req w :
  Requeue (fst (fst (Reconcile fin req w))) = false ∧
  RequeueAfter (fst (fst (Reconcile fin req w))) = 0%Z ∧
  outcome (fst (Reconcile fin req w)) ≠ OutcomeRequeue ∧
  (outcome (fst (Reconcile fin req w)) = OutcomeOk ↔
     snd (fst (Reconcile fin req w)) = None) ∧
  (∀ e, outcome (fst (Reconcile fin req w)) = OutcomeRetry e ↔
     snd (fst (Reconcile fin req w)) = Some e).
Proof.
  pose proof (Reconcile_result_zero req w) as Hz.
  unfold outcome. rewrite Hz. simpl.
  destruct (snd (fst (Reconcile fin req w))) as [e'|];
    repeat split; try congruence; intros; congruence.
Qed.

End Properties.

(** ** The sample record, run *)

(** C8: the reconciler at two inputs where a Tekton lookup fails with an
    error other than NotFound.  During cleanup the error is dropped:
    [Reconcile] returns ok, persists the record without its marker, and the
    derived resource is still in the store.  Before creation the error is
    dropped as well: the create goes ahead and [Reconcile] returns ok. *)
Theorem lookup_failure_is_swallowed :
  let w := sample_world deleting_record true [None; Some sample_transient] in
  let r := Reconcile sample_finalizer sample_req w in
  let w' := sample_world registered_record false [None; Some sample_transient] in
  let r' := Reconcile sample_finalizer sample_req w' in
  (fst r = (ResultZero, None) ∧
   outcome (fst r) = OutcomeOk ∧
   new_calls w (snd r) =
     [mkCall (OpGet ("ci", "build-1")) None;
      mkCall (OpTknGet ("ci", "build-1")) (Some sample_transient);
      mkCall (OpUpdate released_record) None] ∧
   records (snd r) !! ("ci", "build-1") = Some released_record ∧
   tekton (snd r) !! ("ci", "build-1") = Some sample_derived) ∧
  (fst r' = (ResultZero, None) ∧
   outcome (fst r') = OutcomeOk ∧
   new_calls w' (snd r') =
     [mkCall (OpGet ("ci", "build-1")) None;
      mkCall (OpGetTkn ("ci", "build-1")) (Some sample_transient);
      mkCall (OpCreate sample_derived) None]).
Proof.
  vm_compute.
  split; [split; [|split; [|split; [|split]]]|split; [|split]]; reflexivity.
Qed.

(** C1, as stated, fails on the sample record: active, without the marker
    and without a derived resource, one call of [Reconcile] creates the
    derived resource. *)
Lemma registering_run_creates_derived :
  let w := sample_world fresh_record false [] in
  let r := Reconcile sample_finalizer sample_req w in
  records w !! NamespacedName sample_req = Some fresh_record ∧
  active fresh_record = true ∧
  has_finalizer sample_finalizer fresh_record = false ∧
  tekton w !! ("ci", "build-1") = None ∧
  fst r = (ResultZero, None) ∧
  creations (new_calls w (snd r)) = [mkCall (OpCreate sample_derived) None] ∧
  creations (new_calls w (snd r)) ≠ [] ∧
  tekton (snd r) !! ("ci", "build-1") = Some sample_derived.
Proof.
  vm_compute.
  split; [|split; [|split; [|split; [|split; [|split; [|split]]]]]];
    try reflexivity.
  discriminate.
Qed.

(** C4, as stated, fails on the sample record: active, its derived
    resource in the store, but without the marker, [Reconcile] changes the
    record store. *)
Lemma unregistered_run_mutates_record :
  let w := sample_world fresh_record true [] in
  let r := Reconcile sample_finalizer sample_req w in
  records w !! NamespacedName sample_req = Some fresh_record ∧
  active fresh_record = true ∧
  tekton w !! target_key sample_req fresh_record = Some sample_derived ∧
  fst r = (ResultZero, None) ∧
  mutations (new_calls w (snd r)) =
    [mkCall (OpUpdate registered_record) None] ∧
  mutations (new_calls w (snd r)) ≠ [] ∧
  records (snd r) !! NamespacedName sample_req = Some registered_record ∧
  records (snd r) ≠ records w.
Proof.
  assert (H : records (snd (Reconcile sample_finalizer sample_req
                              (sample_world fresh_record true [])))
              !! NamespacedName sample_req = Some registered_record)
    by (vm_compute; reflexivity).
  cbn zeta.
  split; [vm_compute; reflexivity|]. split; [reflexivity|].
  split; [vm_compute; reflexivity|]. split; [vm_compute; reflexivity|].
  split; [vm_compute; reflexivity|]. split; [vm_compute; discriminate|].
  split; [exact H|].
  intros Heq. rewrite Heq in H. vm_compute in H. discriminate.
Qed.

(** ** The theorems at the sample record *)

(** The registering run on the fresh sample record. *)
Lemma reconcile_registers_then_creates_witness :
  fst (Reconcile sample_finalizer sample_req
         (sample_world fresh_record false [])) = (ResultZero, None) ∧
  records (snd (Reconcile sample_finalizer sample_req
                  (sample_world fresh_record false [])))
    !! NamespacedName sample_req =
    Some (AddFinalizer fresh_record sample_finalizer).
Proof.
  pose proof (reconcile_registers_then_creates sample_finalizer sample_req
                (sample_world fresh_record false []) fresh_record
                eq_refl (lookup_singleton_eq _ _) eq_refl eq_refl eq_refl)
    as (H1 & H2 & _).
  exact (conj H1 H2).
Defined.

(** The cleanup of the sample record under deletion, its derived resource
    in the store. *)
Lemma reconcile_cleans_up_then_releases_witness :
  fst (Reconcile sample_finalizer sample_req
         (sample_world deleting_record true [])) = (ResultZero, None) ∧
  tekton (snd (Reconcile sample_finalizer sample_req
                 (sample_world deleting_record true [])))
    !! cleanup_key deleting_record = None.
Proof.
  pose proof (reconcile_cleans_up_then_releases sample_finalizer sample_req
                (sample_world deleting_record true []) deleting_record
                eq_refl (lookup_singleton_eq _ _) eq_refl eq_refl eq_refl)
    as H.
  cbn zeta in H. destruct H as (H1 & _ & _ & H4 & _).
  exact (conj H1 H4).
Defined.

(** The creation for the registered sample record. *)
Lemma reconcile_creates_derived_witness :
  creations
    (new_calls (sample_world registered_record false [])
       (snd (Reconcile sample_finalizer sample_req
               (sample_world registered_record false [])))) =
    [mkCall (OpCreate sample_derived) None].
Proof.
  pose proof (reconcile_creates_derived sample_finalizer sample_req
                (sample_world registered_record false []) registered_record
                eq_refl (lookup_singleton_eq _ _) eq_refl eq_refl
                (lookup_empty _))
    as H.
  cbn zeta in H. destruct H as (_ & _ & H3 & _).
  exact H3.
Defined.

(** The registered sample record with its derived resource in place. *)
Lemma reconcile_existing_derived_untouched_witness :
  mutations
    (new_calls (sample_world registered_record true [])
       (snd (Reconcile sample_finalizer sample_req
               (sample_world registered_record true [])))) = [].
Proof.
  pose proof (reconcile_existing_derived_untouched sample_finalizer sample_req
                (sample_world registered_record true []) registered_record
                sample_derived
                eq_refl (lookup_singleton_eq _ _) eq_refl eq_refl
                (lookup_singleton_eq _ _))
    as H.
  cbn zeta in H. destruct H as (_ & _ & _ & _ & H5 & _).
  exact H5.
Defined.

(** The third call, the delete, failed by the environment. *)
Lemma reconcile_delete_failure_retries_witness :
  fst (Reconcile sample_finalizer sample_req
         (sample_world deleting_record true
            [None; None; Some sample_transient])) =
    (ResultZero, Some sample_transient).
Proof.
  pose proof (reconcile_delete_failure_retries sample_finalizer sample_req
                (sample_world deleting_record true
                   [None; None; Some sample_transient])
                deleting_record sample_derived sample_transient
                (lookup_singleton_eq _ _) eq_refl eq_refl
                (lookup_singleton_eq _ _)
                eq_refl eq_refl eq_refl eq_refl eq_refl)
    as H.
  cbn zeta in H. destruct H as (H1 & _).
  exact H1.
Defined.

(** The sample record under deletion, no derived resource in the store. *)
Lemma reconcile_releases_without_derived_witness :
  records (snd (Reconcile sample_finalizer sample_req
                  (sample_world deleting_record false [])))
    !! NamespacedName sample_req =
    Some (RemoveFinalizer deleting_record sample_finalizer).
Proof.
  pose proof (reconcile_releases_without_derived sample_finalizer sample_req
                (sample_world deleting_record false []) deleting_record
                eq_refl (lookup_singleton_eq _ _) eq_refl eq_refl eq_refl
                (lookup_empty _))
    as H.
  cbn zeta in H. destruct H as (_ & _ & _ & _ & H5 & _).
  exact H5.
Defined.

(** A request on empty stores. *)
Lemma reconcile_record_gone_witness :
  fst (Reconcile sample_finalizer sample_req (mkWorld ∅ ∅ [] [])) =
    (ResultZero, None).
Proof.
  exact (proj1 (reconcile_record_gone sample_finalizer sample_req
                  (mkWorld ∅ ∅ [] []) (lookup_empty _) eq_refl)).
Defined.

(** The update that registers the marker, answered by a conflict. *)
Lemma reconcile_conflict_is_retryable_witness :
  outcome (fst (Reconcile sample_finalizer sample_req
                  (sample_world fresh_record false [None; Some ErrConflict]))) =
    OutcomeRetry ErrConflict.
Proof.
  assert (Hin : In (mkCall (OpUpdate registered_record) (Some ErrConflict))
                  (new_calls
                     (sample_world fresh_record false [None; Some ErrConflict])
                     (snd (Reconcile sample_finalizer sample_req
                             (sample_world fresh_record false
                                [None; Some ErrConflict])))))
    by (vm_compute; right; left; reflexivity).
  assert (Hn : nominal
                 (snd (Reconcile sample_finalizer sample_req
                         (sample_world fresh_record false
                            [None; Some ErrConflict]))) = true)
    by (vm_compute; reflexivity).
  pose proof (reconcile_conflict_is_retryable sample_finalizer sample_req
                (sample_world fresh_record false [None; Some ErrConflict])
                fresh_record registered_record
                (lookup_singleton_eq _ _) eq_refl Hin Hn)
    as H.
  cbn zeta in H. destruct H as (_ & H2 & _).
  exact H2.
Defined.

(** ** Further properties of the reconciler *)

Section Further.

Variable fin : string.

Implicit Types (req : Request) (w : World) (p : PipelineRun) (e : Err).

(** Unfold a run down to the single store calls and split on every
    branch it takes. *)
Ltac run_all :=
  unfold Reconcile, Reconcile_third, reconcileTektonCrd,
    reconcileTektonPipelineRun, deleteExternalResources, bind, ret,
    client_Get, client_Update, client_GetTkn, client_Create, tkn_Get,
    tkn_Delete, lookup_tkn, store_call, new_calls;
  repeat (case_match; simplify_eq; simpl in * );
  rewrite <- ?app_assoc, ?drop_app_length; simpl.

(** X1: [reconcileTektonPipelineRun], whatever the environment does to its
    calls, never touches the record store; when it returns nil a Tekton
    object sits under the target name afterwards, and when it returns an
    error the Tekton store is as before. *)
Theorem reconcileTektonPipelineRun_post (namespace : string)
    (spec : PipelineRunSpec) w :
  let r := reconcileTektonPipelineRun namespace spec w in
  records (snd r) = records w ∧
  (fst r = None → is_Some (tekton (snd r) !! (namespace, SpecName spec))) ∧
  (fst r ≠ None → tekton (snd r) = tekton w).
Proof.
  cbn zeta. run_all; repeat split; intros; try congruence; eauto.
  all: try (rewrite lookup_insert_eq; eauto).
Qed.

(** X2: [deleteExternalResources], whatever the environment does to its
    calls, never touches the record store and issues no call besides the
    lookup and the delete; an error it returns leaves the Tekton store as
    it was, and a nil return after a lookup that got through means no
    Tekton object is left under the record's target name. *)
Theorem deleteExternalResources_post p w :
  let r := deleteExternalResources p w in
  records (snd r) = records w ∧
  Forall (fun c => is_cleanup_op (call_op c) = true) (new_calls w (snd r)) ∧
  (fst r ≠ None → tekton (snd r) = tekton w) ∧
  (fst r = None → fault_at 0 w = None →
     tekton (snd r) !! cleanup_key p = None).
Proof.
  cbn zeta. unfold fault_at, cleanup_key.
  destruct (faults w) as [|f fs] eqn:Hf; run_all;
    rewrite ?Hf in *; simpl in *; simplify_eq;
    repeat split; intros; try congruence; eauto;
    try (repeat constructor; fail);
    try apply lookup_delete_eq.
Qed.

(** X3: every run of [Reconcile] starts by fetching the record under the
    key of the request and issues at most three more store calls. *)
Theorem Reconcile_calls_bounded req w :
  ∃ r l,
    new_calls w (snd (Reconcile fin req w)) =
      mkCall (OpGet (NamespacedName req)) r :: l ∧
    (List.length l ≤ 3)%nat.
Proof.
  run_all; eexists _, _; (split; [reflexivity|simpl; lia]).
Qed.

(** X4: under any behaviour of the environment, a failed call of
    [Reconcile] other than a Tekton lookup ends the run and is what the run
    returns: the error of a failed update, create or delete as it is, the
    error of a failed fetch through [client.IgnoreNotFound]. *)
Theorem Reconcile_surfaces_failure req w c e :
  In c (new_calls w (snd (Reconcile fin req w))) →
  call_err c = Some e →
  is_lookup (call_op c) = false →
  snd (fst (Reconcile fin req w)) =
    (if is_mutation (call_op c) then Some e else IgnoreNotFound e) ∧
  last (new_calls w (snd (Reconcile fin req w))) = Some c.
Proof.
  run_all; intros Hin He Hl;
    repeat (destruct Hin as [Hin|Hin]; [subst c; simpl in *; simplify_eq|]);
    try contradiction; try (split; reflexivity).
Qed.

(** X5: a run of [Reconcile] on a record that is not under deletion issues
    neither the cleanup lookup nor a delete, and nothing leaves the Tekton
    store, whatever the environment does. *)
Theorem Reconcile_active_never_deletes req w p :
  records w !! NamespacedName req = Some p →
  active p = true →
  Forall (fun c => is_cleanup_op (call_op c) = false)
         (new_calls w (snd (Reconcile fin req w))) ∧
  tekton w ⊆ tekton (snd (Reconcile fin req w)).
Proof.
  unfold active. intros Hk Hact.
  run_all; split; try (repeat constructor; fail); try reflexivity;
    try congruence;
    apply insert_subseteq; assumption.
Qed.

(** X6: a run of [Reconcile] on a record under deletion issues neither the
    creation lookup nor a create, and nothing enters the Tekton store,
    whatever the environment does. *)
Theorem Reconcile_deleting_never_creates req w p :
  records w !! NamespacedName req = Some p →
  active p = false →
  Forall (fun c => is_creation_op (call_op c) = false)
         (new_calls w (snd (Reconcile fin req w))) ∧
  tekton (snd (Reconcile fin req w)) ⊆ tekton w.
Proof.
  unfold active. intros Hk Hact.
  run_all; split; try (repeat constructor; fail); try reflexivity;
    try congruence;
    apply delete_subseteq.
Qed.

(** *** What a run may change *)

Lemma other_finalizers_Add fin' p :
  other_finalizers fin' (AddFinalizer p fin') = other_finalizers fin' p.
Proof.
  unfold other_finalizers, AddFinalizer.
  destruct (containsString (GetFinalizers p) fin'); [reflexivity|].
  unfold GetFinalizers; simpl. rewrite List.filter_app. simpl.
  rewrite String.eqb_refl. simpl. apply app_nil_r.
Qed.

Lemma other_finalizers_Remove fin' p :
  other_finalizers fin' (RemoveFinalizer p fin') = other_finalizers fin' p.
Proof.
  unfold other_finalizers, RemoveFinalizer, GetFinalizers; simpl.
  induction (Finalizers (Meta p)) as [|x l IH]; simpl; [reflexivity|].
  destruct (negb (String.eqb x fin')) eqn:Hx; simpl; rewrite ?Hx, IH;
    reflexivity.
Qed.

(** X7: whatever the environment does, a run of [Reconcile] leaves every
    record other than the one under the request's key as it was, and the
    record under that key keeps its name, namespace, deletion timestamp,
    specification and every finalizer other than the reconciler's own, in
    their order. *)
Theorem Reconcile_record_frame req w p :
  records w !! NamespacedName req = Some p →
  obj_key p = NamespacedName req →
  (∀ k, k ≠ NamespacedName req →
     records (snd (Reconcile fin req w)) !! k = records w !! k) ∧
  ∃ p', records (snd (Reconcile fin req w)) !! NamespacedName req = Some p' ∧
        obj_key p' = obj_key p ∧
        DeletionTimestamp (Meta p') = DeletionTimestamp (Meta p) ∧
        Spec p' = Spec p ∧
        other_finalizers fin p' = other_finalizers fin p.
Proof.
  intros Hk Hkey.
  assert (HA : obj_key (AddFinalizer p fin) = NamespacedName req)
    by (rewrite obj_key_Add; exact Hkey).
  assert (HR : obj_key (RemoveFinalizer p fin) = NamespacedName req)
    by exact Hkey.
  assert (HdA : DeletionTimestamp (Meta (AddFinalizer p fin)) =
                DeletionTimestamp (Meta p))
    by (unfold AddFinalizer; destruct (containsString _ _); reflexivity).
  pose proof (Spec_Add fin p) as HsA.
  pose proof (other_finalizers_Add fin p) as HoA.
  pose proof (other_finalizers_Remove fin p) as HoR.
  run_all; rewrite ?HA, ?HR in *;
    (split; [intros k Hne; rewrite ?lookup_insert_ne by congruence; reflexivity|]);
    rewrite ?lookup_insert_eq; eauto 8.
  all: eexists; (split; [first [reflexivity|eassumption]|]);
    rewrite ?obj_key_Add; auto.
Qed.

(** X8: whatever the environment does, a run of [Reconcile] leaves every
    Tekton object other than the one named by the record's [Spec.Name] in
    the record's namespace as it was. *)
Theorem Reconcile_tekton_frame req w p :
  records w !! NamespacedName req = Some p →
  obj_key p = NamespacedName req →
  ∀ k, k ≠ (Namespace (Meta p), SpecName (Spec p)) →
    tekton (snd (Reconcile fin req w)) !! k = tekton w !! k.
Proof.
  intros Hk Hkey k.
  assert (Hns : ReqNamespace req = Namespace (Meta p))
    by (unfold ReqNamespace; rewrite <- Hkey; reflexivity).
  pose proof (Spec_Add fin p) as HsA.
  run_all; rewrite ?HsA, ?Hns in *; intros Hne;
    change (tkn_key (tektonPipelineRun (Namespace (Meta p)) (Spec p)))
      with (Namespace (Meta p), SpecName (Spec p));
    rewrite ?lookup_insert_ne, ?lookup_delete_ne by congruence;
    reflexivity.
Qed.

(** *** What a return value tells about the stores *)

Lemma fault_at_0 w : fault_at 0 w = hd None (faults w).
Proof. unfold fault_at. destruct (faults w); reflexivity. Qed.

Lemma fault_at_1 w : fault_at 1 w = hd None (tail (faults w)).
Proof. unfold fault_at. destruct (faults w) as [|? [|? ?]]; reflexivity. Qed.

(** X9: when the fetch got through and found a record that is not under
    deletion, a nil error from [Reconcile] means, whatever happened to the
    other calls, that the stored record carries the finalizer marker and a
    Tekton object sits under the record's target name. *)
Theorem Reconcile_active_ok_post req w p :
  records w !! NamespacedName req = Some p →
  obj_key p = NamespacedName req →
  active p = true →
  fault_at 0 w = None →
  snd (fst (Reconcile fin req w)) = None →
  (∃ p', records (snd (Reconcile fin req w)) !! NamespacedName req = Some p' ∧
         has_finalizer fin p' = true) ∧
  is_Some (tekton (snd (Reconcile fin req w))
             !! (Namespace (Meta p), SpecName (Spec p))).
Proof.
  intros Hk Hkey Hact H0. rewrite fault_at_0 in H0. unfold active in Hact.
  assert (Hns : ReqNamespace req = Namespace (Meta p))
    by (unfold ReqNamespace; rewrite <- Hkey; reflexivity).
  assert (HA : obj_key (AddFinalizer p fin) = NamespacedName req)
    by (rewrite obj_key_Add; exact Hkey).
  pose proof (Spec_Add fin p) as HsA.
  pose proof (has_finalizer_Add fin p) as HfA.
  run_all; intros Hok; simplify_eq;
    rewrite ?HsA, ?Hns, ?HA in *;
    change (tkn_key (tektonPipelineRun (Namespace (Meta p)) (Spec p)))
      with (Namespace (Meta p), SpecName (Spec p)) in *;
    rewrite ?lookup_insert_eq;
    (split; [eexists; split; [first [reflexivity|eassumption]|]|eauto]);
    try exact HfA.
  all: unfold has_finalizer;
    destruct (containsString (GetFinalizers p) fin); simpl in *; congruence.
Qed.

(** X10: on a record under deletion that carries the marker, a run of
    [Reconcile] that returns an error, whatever the error and whichever
    call it came from, has left the record store as it was: the marker
    goes only in a run that returns nil. *)
Theorem Reconcile_deleting_error_keeps_record req w p :
  records w !! NamespacedName req = Some p →
  active p = false →
  snd (fst (Reconcile fin req w)) ≠ None →
  records (snd (Reconcile fin req w)) = records w.
Proof.
  intros Hk Hact. unfold active in Hact.
  run_all; intros Herr; congruence.
Qed.

(** X11: when the fetch and the cleanup lookup got through on a record
    under deletion that carries the marker, a nil error from [Reconcile]
    means that no Tekton object is left under the record's target name and
    that the stored record no longer carries the marker. *)
Theorem Reconcile_deleting_ok_post req w p :
  records w !! NamespacedName req = Some p →
  obj_key p = NamespacedName req →
  active p = false →
  has_finalizer fin p = true →
  fault_at 0 w = None →
  fault_at 1 w = None →
  snd (fst (Reconcile fin req w)) = None →
  records (snd (Reconcile fin req w)) !! NamespacedName req =
    Some (RemoveFinalizer p fin) ∧
  has_finalizer fin (RemoveFinalizer p fin) = false ∧
  tekton (snd (Reconcile fin req w)) !! cleanup_key p = None.
Proof.
  intros Hk Hkey Hact Hfin H0 H1.
  rewrite fault_at_0 in H0. rewrite fault_at_1 in H1.
  unfold active in Hact. unfold has_finalizer in Hfin.
  assert (HR : obj_key (RemoveFinalizer p fin) = NamespacedName req)
    by exact Hkey.
  pose proof (has_finalizer_Remove fin p) as HfR.
  unfold cleanup_key.
  run_all; intros Hok; simplify_eq; rewrite ?HR in *;
    rewrite ?lookup_insert_eq, ?lookup_delete_eq;
    repeat split; auto; congruence.
Qed.

(** *** Runs one after the other *)

(** X12: when the creation lookup fails although the Tekton object is
    there, [Reconcile] goes on to the create, which the store refuses, and
    returns AlreadyExists in place of the lookup's error; both stores are
    as before. *)
Theorem Reconcile_lookup_failure_then_exists req w p t e :
  records w !! NamespacedName req = Some p →
  active p = true →
  has_finalizer fin p = true →
  tekton w !! target_key req p = Some t →
  fault_at 0 w = None →
  fault_at 1 w = Some e →
  fault_at 2 w = None →
  fst (Reconcile fin req w) = (ResultZero, Some ErrAlreadyExists) ∧
  new_calls w (snd (Reconcile fin req w)) =
    [mkCall (OpGet (NamespacedName req)) None;
     mkCall (OpGetTkn (target_key req p)) (Some e);
     mkCall (OpCreate (tektonPipelineRun (ReqNamespace req) (Spec p)))
            (Some ErrAlreadyExists)] ∧
  records (snd (Reconcile fin req w)) = records w ∧
  tekton (snd (Reconcile fin req w)) = tekton w.
Proof.
  intros Hk Hact Hfin Hd H0 H1 H2. unfold Reconcile, bind.
  rewrite (client_Get_found _ _ _ H0 Hk).
  unfold active in Hact. rewrite Hact.
  unfold has_finalizer in Hfin. rewrite Hfin.
  change (negb true) with false. cbv beta iota.
  unfold Reconcile_third, reconcileTektonCrd, reconcileTektonPipelineRun,
    bind, client_GetTkn.
  fold (target_key req p).
  rewrite (lookup_tkn_fault _ _ _ e) by (rewrite fault_at_advance; exact H1).
  unfold client_Create.
  rewrite store_call_run by (rewrite !fault_at_advance; exact H2).
  simpl.
  change (tkn_key (tektonPipelineRun (ReqNamespace req) (Spec p)))
    with (target_key req p).
  rewrite Hd. simpl. repeat split.
  apply new_calls_app. simpl. rewrite <- !app_assoc. reflexivity.
Qed.

(** X13: in a world that lets every call through, one run of [Reconcile]
    on a record that is not under deletion, with or without the marker
    and with or without a Tekton object, reaches the steady state: the
    stored record carries the marker, the Tekton object is there, and a
    second run returns ok having issued its two reads only. *)
Theorem Reconcile_active_converges req w p :
  nominal w = true →
  records w !! NamespacedName req = Some p →
  obj_key p = NamespacedName req →
  active p = true →
  let w1 := snd (Reconcile fin req w) in
  let w2 := snd (Reconcile fin req w1) in
  fst (Reconcile fin req w) = (ResultZero, None) ∧
  records w1 !! NamespacedName req = Some (AddFinalizer p fin) ∧
  is_Some (tekton w1 !! target_key req p) ∧
  fst (Reconcile fin req w1) = (ResultZero, None) ∧
  new_calls w1 w2 =
    [mkCall (OpGet (NamespacedName req)) None;
     mkCall (OpGetTkn (target_key req p)) None] ∧
  records w2 = records w1 ∧
  tekton w2 = tekton w1.
Proof.
  intros Hw Hk Hkey Hact.
  assert (Hfirst : ∃ w1,
    Reconcile fin req w = ((ResultZero, None), w1) ∧
    records w1 !! NamespacedName req = Some (AddFinalizer p fin) ∧
    is_Some (tekton w1 !! target_key req p) ∧
    nominal w1 = true).
  { destruct (has_finalizer fin p) eqn:Hfin.
    - destruct (Reconcile_steady fin req w p Hw Hk Hact Hfin)
        as (w1 & -> & Hr & Ht & _ & Hn).
      exists w1. split; [reflexivity|]. rewrite Hr, Ht.
      split; [|split; [|exact Hn]].
      + unfold AddFinalizer. unfold has_finalizer in Hfin. rewrite Hfin.
        exact Hk.
      + unfold ensure_derived.
        destruct (tekton w !! target_key req p) eqn:Hd;
          [rewrite Hd|rewrite lookup_insert_eq]; eauto.
    - destruct (Reconcile_registers fin req w p Hw Hk Hkey Hact Hfin)
        as (w1 & -> & Hr & Ht & _ & Hn).
      exists w1. split; [reflexivity|]. rewrite Hr, Ht.
      split; [apply lookup_insert_eq|split; [|exact Hn]].
      unfold ensure_derived.
      destruct (tekton w !! target_key req p) eqn:Hd;
        [rewrite Hd|rewrite lookup_insert_eq]; eauto. }
  destruct Hfirst as (w1 & -> & Hk1 & [t Hd1] & Hn1).
  cbn zeta. simpl fst; simpl snd.
  destruct (Reconcile_steady fin req w1 (AddFinalizer p fin) Hn1 Hk1)
    as (w2 & -> & Hr & Ht & Hl & _).
  { rewrite <- Hact. unfold AddFinalizer, active.
    destruct (containsString _ _); reflexivity. }
  { apply has_finalizer_Add. }
  unfold target_key in *. rewrite Spec_Add in *.
  unfold creation_calls, ensure_derived in *. rewrite Hd1 in *.
  simpl fst; simpl snd.
  rewrite (new_calls_app _ _ _ Hl), Hr, Ht.
  repeat split; eauto.
Qed.

Lemma Reconcile_first_run req w p :
  nominal w = true →
  records w !! NamespacedName req = Some p →
  obj_key p = NamespacedName req →
  active p = true →
  ∃ w1, Reconcile fin req w = ((ResultZero, None), w1) ∧
        records w1 !! NamespacedName req = Some (AddFinalizer p fin) ∧
        tekton w1 =
          ensure_derived (target_key req p)
            (tektonPipelineRun (ReqNamespace req) (Spec p)) (tekton w) ∧
        nominal w1 = true.
Proof.
  intros Hw Hk Hkey Hact.
  destruct (has_finalizer fin p) eqn:Hfin.
  - destruct (Reconcile_steady fin req w p Hw Hk Hact Hfin)
      as (w1 & -> & Hr & Ht & _ & Hn).
    exists w1. split; [reflexivity|]. rewrite Hr.
    split; [|split; [exact Ht|exact Hn]].
    unfold AddFinalizer. unfold has_finalizer in Hfin. rewrite Hfin.
    exact Hk.
  - destruct (Reconcile_registers fin req w p Hw Hk Hkey Hact Hfin)
      as (w1 & -> & Hr & Ht & _ & Hn).
    exists w1. split; [reflexivity|]. rewrite Hr.
    split; [apply lookup_insert_eq|split; [exact Ht|exact Hn]].
Qed.

(** X14: in a world that lets every call through, a record with no Tekton
    object under its target name is reconciled (the object is created),
    then a delete request marks it, then it is reconciled again: the
    Tekton store is back to what it was before the first run, and the
    stored record has lost the marker and kept its other finalizers. *)
Theorem Reconcile_create_delete_round_trip req w p t :
  nominal w = true →
  records w !! NamespacedName req = Some p →
  obj_key p = NamespacedName req →
  active p = true →
  tekton w !! target_key req p = None →
  Time_IsZero t = false →
  let w1 := snd (Reconcile fin req w) in
  let w2 := request_delete t (NamespacedName req) w1 in
  let w3 := snd (Reconcile fin req w2) in
  tekton w1 !! target_key req p =
    Some (tektonPipelineRun (ReqNamespace req) (Spec p)) ∧
  fst (Reconcile fin req w2) = (ResultZero, None) ∧
  tekton w3 = tekton w ∧
  ∃ p3, records w3 !! NamespacedName req = Some p3 ∧
        has_finalizer fin p3 = false ∧
        other_finalizers fin p3 = other_finalizers fin p ∧
        Spec p3 = Spec p.
Proof.
  intros Hw Hk Hkey Hact Hd Ht.
  destruct (Reconcile_first_run req w p Hw Hk Hkey Hact)
    as (w1 & -> & Hk1 & Ht1 & Hn1).
  cbn zeta. simpl snd.
  unfold ensure_derived in Ht1. rewrite Hd in Ht1.
  set (p2 := mark_deleted t (AddFinalizer p fin)).
  assert (Hk2 : records (request_delete t (NamespacedName req) w1)
                  !! NamespacedName req = Some p2)
    by (simpl; rewrite lookup_alter_eq, Hk1; reflexivity).
  assert (Hkey2 : obj_key p2 = NamespacedName req)
    by (rewrite <- Hkey, <- (obj_key_Add fin p); reflexivity).
  assert (Hns : ReqNamespace req = Namespace (Meta p))
    by (unfold ReqNamespace; rewrite <- Hkey; reflexivity).
  assert (Hck : cleanup_key p2 = target_key req p).
  { unfold cleanup_key, target_key. rewrite Hns. subst p2. simpl.
    rewrite Spec_Add. f_equal.
    unfold AddFinalizer. destruct (containsString _ _); reflexivity. }
  destruct (Reconcile_finalizes fin req
              (request_delete t (NamespacedName req) w1) p2 Hn1 Hk2 Hkey2)
    as (w3 & -> & Hr3 & Ht3 & _ & _).
  { exact Ht. }
  { apply (has_finalizer_Add fin p). }
  simpl fst; simpl snd.
  split; [rewrite Ht1; apply lookup_insert_eq|].
  split; [reflexivity|].
  split.
  - rewrite Ht3, Hck. simpl. rewrite Ht1, delete_insert_eq.
    apply delete_id, Hd.
  - exists (RemoveFinalizer p2 fin). rewrite Hr3.
    split; [apply lookup_insert_eq|].
    split; [apply has_finalizer_Remove|].
    split.
    + rewrite other_finalizers_Remove.
      change (other_finalizers fin p2)
        with (other_finalizers fin (AddFinalizer p fin)).
      apply other_finalizers_Add.
    + change (Spec (RemoveFinalizer p2 fin)) with (Spec (AddFinalizer p fin)).
      apply Spec_Add.
Qed.

(** X15: the cleanup goes by name alone.  In a world that lets every call
    through, when a record under deletion and another record that is not
    share the namespace and [Spec.Name], reconciling the first removes the
    Tekton object the second one relies on, and the next run on the second
    creates it anew from the second record's specification. *)
Theorem Reconcile_shared_name reqA reqB w pA pB t :
  nominal w = true →
  records w !! NamespacedName reqA = Some pA →
  records w !! NamespacedName reqB = Some pB →
  NamespacedName reqA ≠ NamespacedName reqB →
  obj_key pA = NamespacedName reqA →
  active pA = false →
  has_finalizer fin pA = true →
  active pB = true →
  has_finalizer fin pB = true →
  cleanup_key pA = target_key reqB pB →
  tekton w !! target_key reqB pB = Some t →
  let w1 := snd (Reconcile fin reqA w) in
  let w2 := snd (Reconcile fin reqB w1) in
  fst (Reconcile fin reqA w) = (ResultZero, None) ∧
  tekton w1 !! target_key reqB pB = None ∧
  fst (Reconcile fin reqB w1) = (ResultZero, None) ∧
  tekton w2 !! target_key reqB pB =
    Some (tektonPipelineRun (ReqNamespace reqB) (Spec pB)).
Proof.
  intros Hw HkA HkB Hne HkeyA HactA HfinA HactB HfinB Hshared Hd.
  destruct (Reconcile_finalizes fin reqA w pA Hw HkA HkeyA HactA HfinA)
    as (w1 & -> & Hr1 & Ht1 & _ & Hn1).
  cbn zeta. simpl fst; simpl snd.
  assert (HkB1 : records w1 !! NamespacedName reqB = Some pB)
    by (rewrite Hr1, lookup_insert_ne by exact Hne; exact HkB).
  assert (Hd1 : tekton w1 !! target_key reqB pB = None)
    by (rewrite Ht1, Hshared; apply lookup_delete_eq).
  destruct (Reconcile_steady fin reqB w1 pB Hn1 HkB1 HactB HfinB)
    as (w2 & -> & _ & Ht2 & _ & _).
  unfold ensure_derived in Ht2. rewrite Hd1 in Ht2.
  simpl fst; simpl snd. rewrite Ht2.
  repeat split; [exact Hd1|apply lookup_insert_eq].
Qed.

End Further.

(** ** Properties of [addControllers] *)

Section BootProperties.

Context {Config Clientset DevopsInterface : Type}.

Variable env : BootEnv Config Clientset.

(** A [range] over a map visits every entry once, in an order of its own. *)
Hypothesis range_perm : ∀ m, range env m ≡ₚ map_to_list m.

Implicit Types (mgr : Manager Clientset) (s : Options)
  (l : list (string * Runnable)).

Lemma add_all_nil_only l mgr :
  Forall (fun kv => kv.2 = None) l → add_all env l mgr = (None, mgr).
Proof.
  induction 1 as [|[k c] l Hc _ IH]; simpl; [reflexivity|].
  simpl in Hc. subst c. exact IH.
Qed.

Lemma add_all_frame l mgr :
  mgr_reconcilers (snd (add_all env l mgr)) = mgr_reconcilers mgr ∧
  ∃ added, mgr_runnables (snd (add_all env l mgr)) = mgr_runnables mgr ++ added ∧
        added `prefix_of` omap snd l ∧
        (fst (add_all env l mgr) = None → added = omap snd l).
Proof.
  revert mgr. induction l as [|[k [c|]] l IH]; intros mgr; simpl.
  - split; [reflexivity|]. exists []. rewrite app_nil_r.
    repeat split; auto. 
  - unfold mgr_Add. destruct (add_error env mgr c) as [e|] eqn:He; simpl.
    + split; [reflexivity|]. exists []. rewrite app_nil_r.
      repeat split; [apply prefix_nil|discriminate].
    + destruct (IH (mkManager (mgr_reconcilers mgr) (mgr_runnables mgr ++ [c])))
        as (Hr & added & Hl & Hp & Hok).
      split; [exact Hr|]. exists (c :: added). simpl in Hl.
      rewrite Hl, <- app_assoc. repeat split.
      * apply prefix_cons, Hp.
      * intros H. f_equal. apply Hok, H.
  - apply IH.
Qed.

(** X16: without a DevOps client [addControllers] returns nil and leaves
    the manager as it was, whatever the options say: no controller is
    added, no reconciler is set up, and the pipeline backend is not even
    looked at. *)
Theorem addControllers_without_client s mgr :
  addControllers env (@None DevopsInterface) s mgr = (None, mgr).
Proof.
  unfold addControllers. apply add_all_nil_only.
  rewrite range_perm. apply Forall_forall. intros [k c] Hin.
  apply elem_of_map_to_list in Hin. simpl in *.
  apply lookup_insert_Some in Hin as [[_ <-]|[_ Hin]]; [reflexivity|].
  apply lookup_insert_Some in Hin as [[_ <-]|[_ Hin]]; [reflexivity|].
  rewrite lookup_empty in Hin. discriminate.
Qed.

Lemma controllers_of_runnables (d : DevopsInterface) (v : Vars) :
  omap snd (range env (controllers_of (Some d) v)) ≡ₚ
  omap id [jenkinsConfigController v; devopsCredentialController v;
           devopsProjectController v; devopsPipelineController v;
           s2iRunController v; s2iBinaryController v].
Proof.
  rewrite range_perm. unfold controllers_of.
  rewrite !map_to_list_insert, map_to_list_empty
    by (rewrite ?lookup_insert_ne by discriminate; apply lookup_empty).
  simpl.
  destruct (jenkinsConfigController v), (devopsCredentialController v),
    (devopsProjectController v), (devopsPipelineController v),
    (s2iRunController v), (s2iBinaryController v); reflexivity.
Qed.

Lemma add_all_ok l mgr :
  (∀ m c, add_error env m c = None) → fst (add_all env l mgr) = None.
Proof.
  intros Hadd. revert mgr.
  induction l as [|[k [c|]] l IH]; intros mgr; simpl; auto.
  unfold mgr_Add. rewrite Hadd. apply IH.
Qed.

(** X17: with a DevOps client and a pipeline backend that is neither
    "Jenkins" nor "Tekton" (the comparison is exact), [addControllers]
    returns the error it makes from the backend's name and leaves the
    manager as it was: no reconciler set up, no controller added. *)
Theorem addControllers_unknown_backend (d : DevopsInterface) s mgr :
  PipelineBackend s ≠ "Jenkins" →
  PipelineBackend s ≠ "Tekton" →
  addControllers env (Some d) s mgr = (Some (backend_error s), mgr).
Proof.
  intros HJ HT. unfold addControllers, chooseBackend.
  apply String.eqb_neq in HJ, HT. rewrite HJ, HT. reflexivity.
Qed.

(** X18: with a DevOps client, the backend "Tekton", and the configuration,
    the clientset, both set-ups and every add going through,
    [addControllers] returns nil; it has set up the Tekton Pipeline
    reconciler and then the Tekton PipelineRun reconciler, both on the
    clientset built from the options' kubeconfig, and has added the S2I
    binary, S2I run, project and credential controllers, in some order,
    and neither the Jenkins pipeline nor the Jenkins config controller. *)
Theorem addControllers_tekton (d : DevopsInterface) s mgr cfg cs :
  PipelineBackend s = "Tekton" →
  BuildConfigFromFlags env "" (KubeConfig s) = inr cfg →
  NewForConfig env cfg = inr cs →
  (∀ m r, setup_error env m r = None) →
  (∀ m c, add_error env m c = None) →
  fst (addControllers env (Some d) s mgr) = None ∧
  mgr_reconcilers (snd (addControllers env (Some d) s mgr)) =
    mgr_reconcilers mgr ++
    [TknPipelineReconciler cs; TknPipelineRunReconciler cs] ∧
  ∃ added,
    mgr_runnables (snd (addControllers env (Some d) s mgr)) =
      mgr_runnables mgr ++ added ∧
    added ≡ₚ [S2iBinaryController; S2iRunController;
              DevOpsProjectController; DevOpsCredentialController].
Proof.
  intros Hb Hcfg Hcs Hsetup Hadd.
  unfold addControllers, chooseBackend, SetupWithManager.
  rewrite Hb. simpl String.eqb. cbv iota.
  rewrite Hcfg, Hcs, !Hsetup. cbn [mgr_reconcilers mgr_runnables].
  match goal with |- context [add_all env ?l ?m] =>
    destruct (add_all_frame l m) as (Hr & added & Hl & _ & Hok);
    assert (Hnil : fst (add_all env l m) = None)
  end.
  { apply add_all_ok, Hadd. }
  cbn [mgr_reconcilers mgr_runnables] in Hr, Hl.
  split; [exact Hnil|]. split; [rewrite Hr, <- app_assoc; reflexivity|].
  exists added. split; [exact Hl|].
  rewrite (Hok Hnil), controllers_of_runnables. simpl.
  apply (bool_decide_unpack _). vm_compute. exact I.
Qed.

(** X19: with a DevOps client, the backend "Jenkins", and the set-up and
    every add going through, [addControllers] returns nil; it has set up
    the Jenkins PipelineRun reconciler and no Tekton one, without building
    any clientset, and has added all six controllers, in some order. *)
Theorem addControllers_jenkins (d : DevopsInterface) s mgr :
  PipelineBackend s = "Jenkins" →
  (∀ m r, setup_error env m r = None) →
  (∀ m c, add_error env m c = None) →
  fst (addControllers env (Some d) s mgr) = None ∧
  mgr_reconcilers (snd (addControllers env (Some d) s mgr)) =
    mgr_reconcilers mgr ++ [JenkinsPipelineRunReconciler] ∧
  ∃ added,
    mgr_runnables (snd (addControllers env (Some d) s mgr)) =
      mgr_runnables mgr ++ added ∧
    added ≡ₚ [S2iBinaryController; S2iRunController;
              DevOpsProjectController; DevOpsPipelineController;
              DevOpsCredentialController; JenkinsConfigController].
Proof.
  intros Hb Hsetup Hadd.
  unfold addControllers, chooseBackend, SetupWithManager.
  rewrite Hb. simpl String.eqb. cbv iota.
  rewrite !Hsetup. cbn [mgr_reconcilers mgr_runnables].
  match goal with |- context [add_all env ?l ?m] =>
    destruct (add_all_frame l m) as (Hr & added & Hl & _ & Hok);
    assert (Hnil : fst (add_all env l m) = None)
      by (apply add_all_ok, Hadd)
  end.
  cbn [mgr_reconcilers mgr_runnables] in Hr, Hl.
  split; [exact Hnil|]. split; [exact Hr|].
  exists added. split; [exact Hl|].
  rewrite (Hok Hnil), controllers_of_runnables. simpl.
  apply (bool_decide_unpack _). vm_compute. exact I.
Qed.

(** X20: when the set-up of the Tekton PipelineRun reconciler fails after
    that of the Tekton Pipeline reconciler went through, [addControllers]
    returns that error with no controller added, and the Pipeline
    reconciler stays set up. *)
Theorem addControllers_tekton_second_setup_fails
    (d : DevopsInterface) s mgr cfg cs err :
  PipelineBackend s = "Tekton" →
  BuildConfigFromFlags env "" (KubeConfig s) = inr cfg →
  NewForConfig env cfg = inr cs →
  setup_error env mgr (TknPipelineReconciler cs) = None →
  setup_error env
    (mkManager (mgr_reconcilers mgr ++ [TknPipelineReconciler cs])
               (mgr_runnables mgr))
    (TknPipelineRunReconciler cs) = Some err →
  addControllers env (Some d) s mgr =
    (Some err,
     mkManager (mgr_reconcilers mgr ++ [TknPipelineReconciler cs])
               (mgr_runnables mgr)).
Proof.
  intros Hb Hcfg Hcs H1 H2.
  unfold addControllers, chooseBackend, SetupWithManager.
  rewrite Hb. simpl String.eqb. cbv iota.
  rewrite Hcfg, Hcs, H1, H2. reflexivity.
Qed.

(** X21: whatever the callees answer, the reconcilers one call of
    [addControllers] sets up are none at all, or the Jenkins PipelineRun
    reconciler alone (backend "Jenkins"), or the Tekton Pipeline reconciler
    followed by the Tekton PipelineRun reconciler on the same clientset
    (backend "Tekton"), the first of the two alone only when the call
    returns an error; and any of them only with a DevOps client. *)
Theorem addControllers_reconcilers (devopsClient : option DevopsInterface) s mgr :
  ∃ regs,
    mgr_reconcilers (snd (addControllers env devopsClient s mgr)) =
      mgr_reconcilers mgr ++ regs ∧
    (regs = [] ∨
     (regs = [JenkinsPipelineRunReconciler] ∧
      PipelineBackend s = "Jenkins" ∧ is_Some devopsClient) ∨
     (∃ cs,
        ((regs = [TknPipelineReconciler cs] ∧
          fst (addControllers env devopsClient s mgr) ≠ None) ∨
         regs = [TknPipelineReconciler cs; TknPipelineRunReconciler cs]) ∧
        PipelineBackend s = "Tekton" ∧ is_Some devopsClient)).
Proof.
  unfold addControllers, chooseBackend, SetupWithManager.
  destruct devopsClient as [d|].
  2:{ exists []. rewrite app_nil_r. split; [apply add_all_frame|auto]. }
  destruct (String.eqb_spec (PipelineBackend s) "Jenkins") as [HJ|HJ];
    [|destruct (String.eqb_spec (PipelineBackend s) "Tekton") as [HT|HT]].
  - destruct (setup_error env mgr JenkinsPipelineRunReconciler).
    + exists []. rewrite app_nil_r. auto.
    + exists [JenkinsPipelineRunReconciler].
      split; [apply add_all_frame|]. right; left. eauto.
  - destruct (BuildConfigFromFlags env "" (KubeConfig s)) as [e|cfg];
      [exists []; rewrite app_nil_r; auto|].
    destruct (NewForConfig env cfg) as [e|cs];
      [exists []; rewrite app_nil_r; auto|].
    destruct (setup_error env mgr (TknPipelineReconciler cs));
      [exists []; rewrite app_nil_r; auto|].
    destruct (setup_error env _ (TknPipelineRunReconciler cs)).
    + exists [TknPipelineReconciler cs]. split; [reflexivity|].
      right; right. exists cs. split; [left; split; [reflexivity|discriminate]|eauto].
    + exists [TknPipelineReconciler cs; TknPipelineRunReconciler cs].
      split.
      * match goal with |- context [add_all env ?l ?m] =>
          rewrite (proj1 (add_all_frame l m)) end.
        simpl. rewrite <- app_assoc. reflexivity.
      * right; right. exists cs. eauto.
  - exists []. rewrite app_nil_r. auto.
Qed.

Lemma add_all_distinct (d : DevopsInterface) (v : Vars) mgr full :
  omap id [jenkinsConfigController v; devopsCredentialController v;
           devopsProjectController v; devopsPipelineController v;
           s2iRunController v; s2iBinaryController v] = full →
  NoDup full →
  ∃ added,
    mgr_runnables (snd (add_all env (range env (controllers_of (Some d) v)) mgr))
      = mgr_runnables mgr ++ added ∧
    NoDup added ∧
    (∀ x, x ∈ added → x ∈ full).
Proof.
  intros Hfull Hnd.
  destruct (add_all_frame (range env (controllers_of (Some d) v)) mgr)
    as (_ & added & Hl & Hp & _).
  exists added. split; [exact Hl|].
  destruct Hp as [rest Hp].
  assert (Hnd' : NoDup (added ++ rest))
    by (rewrite <- Hp, controllers_of_runnables, Hfull; exact Hnd).
  split.
  - apply NoDup_app in Hnd'. apply Hnd'.
  - intros x Hx. rewrite <- Hfull, <- (controllers_of_runnables d v), Hp.
    apply elem_of_app. left. exact Hx.
Qed.

(** X22: whatever the callees answer, the controllers one call of
    [addControllers] adds to the manager are pairwise distinct, none is
    added without a DevOps client, and the Jenkins pipeline and Jenkins
    config controllers are added under the backend "Jenkins" only. *)
Theorem addControllers_added (devopsClient : option DevopsInterface) s mgr :
  ∃ added,
    mgr_runnables (snd (addControllers env devopsClient s mgr)) =
      mgr_runnables mgr ++ added ∧
    NoDup added ∧
    (devopsClient = None → added = []) ∧
    (PipelineBackend s ≠ "Jenkins" →
       (DevOpsPipelineController ∉ added) ∧
       (JenkinsConfigController ∉ added)).
Proof.
  destruct devopsClient as [d|].
  2:{ rewrite addControllers_without_client. exists [].
      rewrite app_nil_r.
      repeat split; auto using NoDup_nil_2; apply not_elem_of_nil. }
  assert (Hnone : ∀ (m : Manager Clientset) (e : BootError),
    mgr_runnables m = mgr_runnables mgr →
    ∃ added,
      mgr_runnables (snd (Some e, m)) = mgr_runnables mgr ++ added ∧
      NoDup added ∧
      (Some d = @None DevopsInterface → added = []) ∧
      (PipelineBackend s ≠ "Jenkins" →
         (DevOpsPipelineController ∉ added) ∧
       (JenkinsConfigController ∉ added))).
  { intros m e Hm. exists []. simpl. rewrite app_nil_r.
    repeat split; auto using NoDup_nil_2; apply not_elem_of_nil. }
  unfold addControllers, chooseBackend, SetupWithManager.
  destruct (String.eqb_spec (PipelineBackend s) "Jenkins") as [HJ|HJ];
    [|destruct (String.eqb_spec (PipelineBackend s) "Tekton") as [HT|HT]].
  - destruct (setup_error env mgr JenkinsPipelineRunReconciler);
      [apply Hnone; reflexivity|].
    match goal with |- context [add_all env (range env (controllers_of _ ?v)) ?m] =>
      destruct (add_all_distinct d v m _ eq_refl) as (added & Hl & Hnd & _)
    end.
    { apply (bool_decide_unpack _). vm_compute. exact I. }
    exists added. repeat split; auto; try discriminate; contradiction.
  - destruct (BuildConfigFromFlags env "" (KubeConfig s)) as [e|cfg];
      [apply Hnone; reflexivity|].
    destruct (NewForConfig env cfg) as [e|cs]; [apply Hnone; reflexivity|].
    destruct (setup_error env mgr (TknPipelineReconciler cs));
      [apply Hnone; reflexivity|].
    destruct (setup_error env _ (TknPipelineRunReconciler cs));
      [apply Hnone; reflexivity|].
    match goal with |- context [add_all env (range env (controllers_of _ ?v)) ?m] =>
      destruct (add_all_distinct d v m _ eq_refl) as (added & Hl & Hnd & Hsub)
    end.
    { apply (bool_decide_unpack _). vm_compute. exact I. }
    exists added. split; [exact Hl|]. split; [exact Hnd|].
    split; [discriminate|]. intros _.
    split; intros Hx; apply Hsub in Hx; revert Hx;
      apply (bool_decide_unpack _); vm_compute; exact I.
  - apply Hnone. reflexivity.
Qed.

End BootProperties.

(** ** The further properties at the sample data *)

Lemma Reconcile_surfaces_failure_witness :
  snd (fst (Reconcile sample_finalizer sample_req
              (sample_world fresh_record false [None; Some ErrConflict]))) =
    Some ErrConflict.
Proof.
  assert (Hin : In (mkCall (OpUpdate registered_record) (Some ErrConflict))
                  (new_calls
                     (sample_world fresh_record false [None; Some ErrConflict])
                     (snd (Reconcile sample_finalizer sample_req
                             (sample_world fresh_record false
                                [None; Some ErrConflict])))))
    by (vm_compute; right; left; reflexivity).
  exact (proj1 (Reconcile_surfaces_failure sample_finalizer sample_req
                  (sample_world fresh_record false [None; Some ErrConflict])
                  (mkCall (OpUpdate registered_record) (Some ErrConflict))
                  ErrConflict Hin eq_refl eq_refl)).
Defined.

Lemma Reconcile_active_never_deletes_witness :
  tekton (sample_world registered_record true []) ⊆
  tekton (snd (Reconcile sample_finalizer sample_req
                 (sample_world registered_record true []))).
Proof.
  exact (proj2 (Reconcile_active_never_deletes sample_finalizer sample_req
                  (sample_world registered_record true []) registered_record
                  (lookup_singleton_eq _ _) eq_refl)).
Defined.

Lemma Reconcile_deleting_never_creates_witness :
  tekton (snd (Reconcile sample_finalizer sample_req
                 (sample_world deleting_record true []))) ⊆
  tekton (sample_world deleting_record true []).
Proof.
  exact (proj2 (Reconcile_deleting_never_creates sample_finalizer sample_req
                  (sample_world deleting_record true []) deleting_record
                  (lookup_singleton_eq _ _) eq_refl)).
Defined.

Lemma Reconcile_record_frame_witness :
  records (snd (Reconcile sample_finalizer sample_req
                  (sample_world fresh_record false [])))
    !! ("ci", "build-2") =
  records (sample_world fresh_record false []) !! ("ci", "build-2").
Proof.
  refine (proj1 (Reconcile_record_frame sample_finalizer sample_req
                   (sample_world fresh_record false []) fresh_record
                   (lookup_singleton_eq _ _) eq_refl) ("ci", "build-2") _).
  discriminate.
Defined.

Lemma Reconcile_tekton_frame_witness :
  tekton (snd (Reconcile sample_finalizer sample_req
                 (sample_world fresh_record true [])))
    !! ("ci", "build-2") =
  tekton (sample_world fresh_record true []) !! ("ci", "build-2").
Proof.
  refine (Reconcile_tekton_frame sample_finalizer sample_req
            (sample_world fresh_record true []) fresh_record
            (lookup_singleton_eq _ _) eq_refl ("ci", "build-2") _).
  discriminate.
Defined.

Lemma Reconcile_active_ok_post_witness :
  is_Some (tekton (snd (Reconcile sample_finalizer sample_req
                          (sample_world fresh_record false [])))
             !! ("ci", "build-1")).
Proof.
  assert (Hok : snd (fst (Reconcile sample_finalizer sample_req
                            (sample_world fresh_record false []))) = None)
    by (vm_compute; reflexivity).
  exact (proj2 (Reconcile_active_ok_post sample_finalizer sample_req
                  (sample_world fresh_record false []) fresh_record
                  (lookup_singleton_eq _ _) eq_refl eq_refl eq_refl Hok)).
Defined.

Lemma Reconcile_deleting_error_keeps_record_witness :
  records (snd (Reconcile sample_finalizer sample_req
                  (sample_world deleting_record true
                     [None; None; Some sample_transient]))) =
  records (sample_world deleting_record true
             [None; None; Some sample_transient]).
Proof.
  assert (Herr : snd (fst (Reconcile sample_finalizer sample_req
                             (sample_world deleting_record true
                                [None; None; Some sample_transient]))) ≠ None)
    by (vm_compute; discriminate).
  exact (Reconcile_deleting_error_keeps_record sample_finalizer sample_req
           (sample_world deleting_record true
              [None; None; Some sample_transient])
           deleting_record (lookup_singleton_eq _ _) eq_refl Herr).
Defined.

Lemma Reconcile_deleting_ok_post_witness :
  tekton (snd (Reconcile sample_finalizer sample_req
                 (sample_world deleting_record true [])))
    !! cleanup_key deleting_record = None.
Proof.
  assert (Hok : snd (fst (Reconcile sample_finalizer sample_req
                            (sample_world deleting_record true []))) = None)
    by (vm_compute; reflexivity).
  pose proof (Reconcile_deleting_ok_post sample_finalizer sample_req
                (sample_world deleting_record true []) deleting_record
                (lookup_singleton_eq _ _) eq_refl eq_refl eq_refl
                eq_refl eq_refl Hok) as (_ & _ & H).
  exact H.
Defined.

Lemma Reconcile_lookup_failure_then_exists_witness :
  fst (Reconcile sample_finalizer sample_req
         (sample_world registered_record true [None; Some sample_transient])) =
    (ResultZero, Some ErrAlreadyExists).
Proof.
  exact (proj1 (Reconcile_lookup_failure_then_exists sample_finalizer
                  sample_req
                  (sample_world registered_record true
                     [None; Some sample_transient])
                  registered_record sample_derived sample_transient
                  (lookup_singleton_eq _ _) eq_refl eq_refl
                  (lookup_singleton_eq _ _) eq_refl eq_refl eq_refl)).
Defined.

Lemma Reconcile_active_converges_witness :
  fst (Reconcile sample_finalizer sample_req
         (snd (Reconcile sample_finalizer sample_req
                 (sample_world fresh_record false [])))) =
    (ResultZero, None).
Proof.
  pose proof (Reconcile_active_converges sample_finalizer sample_req
                (sample_world fresh_record false []) fresh_record
                eq_refl (lookup_singleton_eq _ _) eq_refl eq_refl) as H.
  cbn zeta in H. destruct H as (_ & _ & _ & H4 & _).
  exact H4.
Defined.

Lemma Reconcile_create_delete_round_trip_witness :
  tekton
    (snd (Reconcile sample_finalizer sample_req
            (request_delete sample_time (NamespacedName sample_req)
               (snd (Reconcile sample_finalizer sample_req
                       (sample_world fresh_record false [])))))) =
  tekton (sample_world fresh_record false []).
Proof.
  pose proof (Reconcile_create_delete_round_trip sample_finalizer sample_req
                (sample_world fresh_record false []) fresh_record sample_time
                eq_refl (lookup_singleton_eq _ _) eq_refl eq_refl
                (lookup_empty _) eq_refl) as H.
  cbn zeta in H. destruct H as (_ & _ & H3 & _).
  exact H3.
Defined.

Lemma Reconcile_shared_name_witness :
  tekton (snd (Reconcile sample_finalizer sample_req twin_world))
    !! target_key twin_req twin_record = None.
Proof.
  assert (HA : records twin_world !! NamespacedName sample_req =
               Some deleting_record) by (vm_compute; reflexivity).
  assert (HB : records twin_world !! NamespacedName twin_req =
               Some twin_record) by (vm_compute; reflexivity).
  assert (Hne : NamespacedName sample_req ≠ NamespacedName twin_req)
    by discriminate.
  pose proof (Reconcile_shared_name sample_finalizer sample_req twin_req
                twin_world deleting_record twin_record sample_derived
                eq_refl HA HB Hne eq_refl eq_refl eq_refl eq_refl eq_refl
                eq_refl (lookup_singleton_eq _ _)) as H.
  cbn zeta in H. destruct H as (_ & H2 & _).
  exact H2.
Defined.

Lemma sample_range_perm (m : gmap string Runnable) :
  range sample_env m ≡ₚ map_to_list m.
Proof. reflexivity. Qed.

Lemma addControllers_without_client_witness :
  addControllers sample_env (@None unit) tekton_options empty_manager =
    (None, empty_manager).
Proof.
  exact (addControllers_without_client sample_env sample_range_perm
           tekton_options empty_manager).
Defined.

Lemma addControllers_unknown_backend_witness :
  addControllers sample_env (Some tt) (mkOptions "tekton" "") empty_manager =
    (Some (backend_error (mkOptions "tekton" "")), empty_manager).
Proof.
  apply (addControllers_unknown_backend sample_env tt (mkOptions "tekton" "")
           empty_manager); discriminate.
Defined.

Lemma addControllers_tekton_witness :
  mgr_reconcilers
    (snd (addControllers sample_env (Some tt) tekton_options empty_manager)) =
    [TknPipelineReconciler "/etc/kubeconfig";
     TknPipelineRunReconciler "/etc/kubeconfig"].
Proof.
  pose proof (addControllers_tekton sample_env sample_range_perm tt
                tekton_options empty_manager "/etc/kubeconfig"
                "/etc/kubeconfig" eq_refl eq_refl eq_refl
                (fun _ _ => eq_refl) (fun _ _ => eq_refl)) as (_ & H & _).
  exact H.
Defined.

Lemma addControllers_jenkins_witness :
  mgr_reconcilers
    (snd (addControllers sample_env (Some tt) jenkins_options empty_manager)) =
    [JenkinsPipelineRunReconciler].
Proof.
  pose proof (addControllers_jenkins sample_env sample_range_perm tt
                jenkins_options empty_manager eq_refl
                (fun _ _ => eq_refl) (fun _ _ => eq_refl)) as (_ & H & _).
  exact H.
Defined.

Lemma addControllers_tekton_second_setup_fails_witness :
  addControllers failing_env (Some tt) tekton_options empty_manager =
    (Some (ErrExternal "no kind is registered"),
     mkManager [TknPipelineReconciler "/etc/kubeconfig"] []).
Proof.
  exact (addControllers_tekton_second_setup_fails failing_env tt
           tekton_options empty_manager "/etc/kubeconfig" "/etc/kubeconfig"
           (ErrExternal "no kind is registered")
           eq_refl eq_refl eq_refl eq_refl eq_refl).
Defined.

Lemma addControllers_added_witness :
  ∃ added,
    mgr_runnables
      (snd (addControllers sample_env (Some tt) tekton_options empty_manager)) =
      added ∧
    NoDup added.
Proof.
  destruct (addControllers_added sample_env sample_range_perm (Some tt)
              tekton_options empty_manager) as (added & H1 & H2 & _).
  exists added. split; [exact H1|exact H2].
Defined.
